(** * generate-config.js: the CircleCI configuration generator

    A shallow embedding of [generate-config.js], the script that turns the
    folders found under [base/], [browsers/] and [included/] into the
    workflows of [circle.yml], together with the properties of the generated
    document.

    JavaScript strings are modelled as [string] (a sequence of 8-bit code
    units, the UTF-8 encoding that [writeFileSync] puts on disk), arrays as
    [list], [null] as [None], a call that may throw as a [Completion], and the
    file system as a finite map from paths to file contents. *)

From Stdlib Require Import Ascii String List Bool Arith NArith Lia.
From stdpp Require Import gmap strings.

Import ListNotations.

(** ** Strings *)

Module Str.

(** The characters the templates of the script spell with an escape. *)
Definition dq : string := String "034"%char "".
Definition nl : string := String "010"%char "".
Definition cr : string := String "013"%char "".

Definition length : string -> nat := String.length.

(** [s.startsWith(p)], returning what follows the prefix. *)
Fixpoint stripPrefix (p s : string) : option string :=
  match p, s with
  | "", _ => Some s
  | String a p', String b s' =>
      if Ascii.eqb a b then stripPrefix p' s' else None
  | String _ _, "" => None
  end.

Definition startsWith (s p : string) : bool :=
  match stripPrefix p s with Some _ => true | None => false end.

Definition endsWith (s p : string) : bool :=
  startsWith (String.rev s) (String.rev p).

(** [array.join('')] *)
Fixpoint join (l : list string) : string :=
  match l with
  | [] => ""
  | s :: l' => s +:+ join l'
  end.

(** Each line followed by a line feed. *)
Definition unlines (l : list string) : string :=
  join (List.map (fun line => line +:+ nl) l).

(** [array.includes(x)] on an array of strings. *)
Definition includes (l : list string) (x : string) : bool :=
  existsb (String.eqb x) l.

(** White space of [String.prototype.trim] within the ASCII range: TAB, LF,
    VT, FF, CR and SPACE. *)
Definition isWhiteSpace (c : ascii) : bool :=
  match c with
  | "009" | "010" | "011" | "012" | "013" | " " => true
  | _ => false
  end%char.

Fixpoint trimStart (s : string) : string :=
  match s with
  | "" => ""
  | String c s' => if isWhiteSpace c then trimStart s' else s
  end.

Fixpoint trimEnd (s : string) : string :=
  match s with
  | "" => ""
  | String c s' =>
      match trimEnd s' with
      | "" => if isWhiteSpace c then "" else String c ""
      | t => String c t
      end
  end.

(** [s.trim()] *)
Definition trim (s : string) : string := trimEnd (trimStart s).

(** [s.split(c)] for a one-character separator: never an empty array. *)
Fixpoint split (c : ascii) (s : string) : list string :=
  match s with
  | "" => [""]
  | String a s' =>
      if Ascii.eqb a c then "" :: split c s'
      else match split c s' with
           | [] => [String a ""]
           | w :: ws => String a w :: ws
           end
  end.

Definition isDigit (c : ascii) : bool :=
  match c with
  | "0" | "1" | "2" | "3" | "4" | "5" | "6" | "7" | "8" | "9" => true
  | _ => false
  end%char.

(** The longest run of decimal digits a string starts with. *)
Fixpoint takeDigits (s : string) : string :=
  match s with
  | "" => ""
  | String c s' => if isDigit c then String c (takeDigits s') else ""
  end.

(** [s.includes(p)]: [p] occurs somewhere in [s]. *)
Fixpoint contains (s p : string) : bool :=
  startsWith s p
  || match s with
     | "" => false
     | String _ s' => contains s' p
     end.

(** Every character of [s] satisfies [p]. *)
Fixpoint every (p : ascii -> bool) (s : string) : bool :=
  match s with
  | "" => true
  | String c s' => p c && every p s'
  end.

(** A JavaScript string is truthy when it is not empty. *)
Definition truthy (s : string) : bool :=
  match s with "" => false | _ => true end.

End Str.

(** ** Regular expressions of the shape [/marker(\d+)/]

    [exec marker s] is [/marker(\d+)/.exec(s)]: the leftmost position at which
    the literal [marker] is followed by at least one digit, with the greedy
    digit group. The result is the match array [(matches[0], matches[1])], or
    [None] for [null]. *)

Module RegExp.

Definition matchHere (marker s : string) : option (string * string) :=
  match Str.stripPrefix marker s with
  | Some rest =>
      match Str.takeDigits rest with
      | "" => None
      | ds => Some (marker +:+ ds, ds)
      end
  | None => None
  end.

Fixpoint exec (marker s : string) : option (string * string) :=
  match matchHere marker s with
  | Some m => Some m
  | None =>
      match s with
      | "" => None
      | String _ s' => exec marker s'
      end
  end.

End RegExp.

(** ** Browser versions encoded in a tag *)

Definition fullChromeVersion (version : string) : string :=
  "Google Chrome " +:+ version.

Definition fullFirefoxVersion (version : string) : string :=
  "Mozilla Firefox " +:+ version.

Definition fullEdgeVersion (version : string) : string :=
  "Microsoft Edge " +:+ version.

(** [matches && matches[1]] guards the three finders. *)
Definition findVersion (marker : string) (full : string -> string)
    (imageAndTag : string) : option string :=
  match RegExp.exec marker imageAndTag with
  | Some (_, group1) =>
      if Str.truthy group1 then Some (full group1) else None
  | None => None
  end.

Definition findChromeVersion : string -> option string :=
  findVersion "chrome" fullChromeVersion.

Definition findFirefoxVersion : string -> option string :=
  findVersion "-ff" fullFirefoxVersion.

Definition findEdgeVersion : string -> option string :=
  findVersion "-edge" fullEdgeVersion.

(** ** Exceptions

    A JavaScript function either returns or throws. The script throws an
    [Error] of its own and lets the [TypeError] of the [semver] package
    escape. *)

Inductive Exn : Type :=
| Error (message : string)
| TypeError (message : string).

Inductive Completion (A : Type) : Type :=
| Return (a : A)
| Throw (e : Exn).

Arguments Return {A} a.
Arguments Throw {A} e.

Module Exc.

Definition bind {A B} (m : Completion A) (k : A -> Completion B)
    : Completion B :=
  match m with
  | Return a => k a
  | Throw e => Throw e
  end.

(** [array.map(f)] with a callback that may throw: the elements are
    visited in index order and the first exception ends the call. *)
Fixpoint map {A B} (f : A -> Completion B) (l : list A)
    : Completion (list B) :=
  match l with
  | [] => Return []
  | x :: l' =>
      bind (f x) (fun y => bind (map f l') (fun ys => Return (y :: ys)))
  end.

(** [array.filter(p)] with a callback that may throw. *)
Fixpoint filter {A} (p : A -> Completion bool) (l : list A)
    : Completion (list A) :=
  match l with
  | [] => Return []
  | x :: l' =>
      bind (p x) (fun keep =>
      bind (filter p l') (fun xs =>
      Return (if keep then x :: xs else xs)))
  end.

(** What a callback answers, as a plain boolean: [false] when it
    throws. *)
Definition answer {A} (p : A -> Completion bool) (x : A) : bool :=
  match p x with
  | Return b => b
  | Throw _ => false
  end.

End Exc.

Declare Scope exc_scope.
Delimit Scope exc_scope with exc.
Notation "x <- m ;; k" := (Exc.bind m (fun x => k))
  (at level 100, m at next level, right associativity) : exc_scope.

(** ** The [semver] package

    [semver] is an npm dependency of the script and is not part of the
    repository; the script calls [semver.lt] only, in strict mode. The
    module below models what the specification relies on: a tag is read as
    a semantic version [v?MAJOR.MINOR.PATCH(-PRERELEASE)?(+BUILD)?],
    versions are ordered by major, minor and patch as numbers and then by
    the pre-release rules, and a string that is no version makes the
    [SemVer] constructor throw a [TypeError]. *)

Module semver.

Definition MAX_LENGTH : nat := 256.
Definition MAX_SAFE_INTEGER : N := 9007199254740991.

Record SemVer : Type := {
  major : N;
  minor : N;
  patch : N;
  prerelease : list string;
  build : list string
}.

(** [/^[0-9]+$/.test(s)] *)
Definition isNumeric (s : string) : bool :=
  Str.truthy s && Str.every Str.isDigit s.

(** [0|[1-9]\d*] *)
Definition isNumericIdentifier (s : string) : bool :=
  match s with
  | "" => false
  | String "0" "" => true
  | String "0" _ => false
  | String _ _ => Str.every Str.isDigit s
  end.

(** [[0-9A-Za-z-]] *)
Definition isIdentifierChar (c : ascii) : bool :=
  let n := N_of_ascii c in
  Str.isDigit c
  || ((65 <=? n)%N && (n <=? 90)%N)
  || ((97 <=? n)%N && (n <=? 122)%N)
  || Ascii.eqb c "-".

(** A pre-release identifier is a numeric identifier or
    [\d*[a-zA-Z-][a-zA-Z0-9-]*]. *)
Definition isPrereleaseIdentifier (s : string) : bool :=
  Str.truthy s && Str.every isIdentifierChar s
  && (negb (Str.every Str.isDigit s) || isNumericIdentifier s).

(** [[0-9A-Za-z-]+] *)
Definition isBuildIdentifier (s : string) : bool :=
  Str.truthy s && Str.every isIdentifierChar s.

Fixpoint toNumberFrom (acc : N) (s : string) : N :=
  match s with
  | "" => acc
  | String c s' => toNumberFrom (acc * 10 + (N_of_ascii c - 48)) s'
  end.

(** [+s] for a string of decimal digits. *)
Definition toNumber (s : string) : N := toNumberFrom 0 s.

(** The text before the first [c], and the text after it when there is
    one. *)
Fixpoint breakAt (c : ascii) (s : string) : string * option string :=
  match s with
  | "" => ("", None)
  | String a s' =>
      if Ascii.eqb a c then ("", Some s')
      else let '(before, after) := breakAt c s' in (String a before, after)
  end.

(** The dot-separated identifiers of an optional part; [None] when one of
    them is not allowed there. *)
Definition identifiers (ok : string -> bool) (part : option string)
    : option (list string) :=
  match part with
  | None => Some []
  | Some p =>
      let ids := Str.split "." p in
      if forallb ok ids then Some ids else None
  end.

(** Modelled from the spec: the grammar of a semantic version, which the
    package [semver] (a dependency, absent from the repository) checks with
    its strict regular expression [FULL]. The result is what the expression
    captures: the three numbers, the pre-release and the build
    identifiers. *)
Definition matchFull (version : string)
    : option (string * string * string * list string * list string) :=
  let v :=
    match version with String "v" rest => rest | _ => version end in
  let '(mainAndPre, buildPart) := breakAt "+" v in
  let '(main, prePart) := breakAt "-" mainAndPre in
  match Str.split "." main with
  | [ma; mi; pa] =>
      if isNumericIdentifier ma && isNumericIdentifier mi
         && isNumericIdentifier pa
      then
        match identifiers isPrereleaseIdentifier prePart,
              identifiers isBuildIdentifier buildPart with
        | Some pre, Some bld => Some (ma, mi, pa, pre, bld)
        | _, _ => None
        end
      else None
  | _ => None
  end.

(** Modelled from the spec: [new SemVer(version)] of the package [semver]
    (a dependency, absent from the repository). A tag that is no semantic
    version fails fast, with a [TypeError]. *)
Definition parse (version : string) : Completion SemVer :=
  if (MAX_LENGTH <? Str.length version)%nat then
    Throw (TypeError "version is longer than 256 characters")
  else
    match matchFull (Str.trim version) with
    | None => Throw (TypeError ("Invalid Version: " +:+ version))
    | Some (ma, mi, pa, pre, bld) =>
        if (MAX_SAFE_INTEGER <? toNumber ma)%N then
          Throw (TypeError "Invalid major version")
        else if (MAX_SAFE_INTEGER <? toNumber mi)%N then
          Throw (TypeError "Invalid minor version")
        else if (MAX_SAFE_INTEGER <? toNumber pa)%N then
          Throw (TypeError "Invalid patch version")
        else
          Return {| major := toNumber ma; minor := toNumber mi;
                    patch := toNumber pa; prerelease := pre;
                    build := bld |}
    end.

(** [compareIdentifiers(a, b)]: numbers before names, numbers by value,
    names by code units. *)
Definition compareIdentifiers (a b : string) : comparison :=
  if isNumeric a && isNumeric b then (toNumber a ?= toNumber b)%N
  else if String.eqb a b then Eq
  else if isNumeric a then Lt
  else if isNumeric b then Gt
  else if String.ltb a b then Lt else Gt.

Fixpoint compareIdentifierLists (a b : list string) : comparison :=
  match a, b with
  | [], [] => Eq
  | _ :: _, [] => Gt
  | [], _ :: _ => Lt
  | x :: a', y :: b' =>
      match compareIdentifiers x y with
      | Eq => compareIdentifierLists a' b'
      | c => c
      end
  end.

Definition compareMain (a b : SemVer) : comparison :=
  match (major a ?= major b)%N with
  | Eq =>
      match (minor a ?= minor b)%N with
      | Eq => (patch a ?= patch b)%N
      | c => c
      end
  | c => c
  end.

(** A version with a pre-release comes before the same version without
    one. *)
Definition comparePre (a b : SemVer) : comparison :=
  match prerelease a, prerelease b with
  | _ :: _, [] => Lt
  | [], _ :: _ => Gt
  | [], [] => Eq
  | pa, pb => compareIdentifierLists pa pb
  end.

(** Modelled from the spec: the order of semantic versions, major, minor
    and patch first and the pre-release rules next. The build identifiers do
    not take part. *)
Definition compare (a b : SemVer) : comparison :=
  match compareMain a b with
  | Eq => comparePre a b
  | c => c
  end.

(** Modelled from the spec: [semver.lt(a, b)] of the package [semver] (a
    dependency, absent from the repository), the strict order of semantic
    versions. Both arguments are parsed, the first one first. *)
Definition lt (a b : string) : Completion bool :=
  (va <- parse a ;;
   vb <- parse b ;;
   Return (match compare va vb with Lt => true | _ => false end))%exc.

End semver.

(** ** Images

    A folder [base/12.0.0] is the image [base] with the tag [12.0.0]. *)

Record ImageTag : Type := {
  name : string;
  tag : string
}.

(** ** The workflow of the base images *)

Module Base.

(** Tags that have been built already. *)
Definition skipImages : list string :=
  [ "6"; "8"; "8.0.0"; "8.15.1"; "8.16.0"; "8.2.1"; "8.9.3";
    "8.9.3-npm-6.10.1"; "10"; "10.0.0"; "10.11.0"; "10.15.3"; "10.16.0";
    "10.16.3"; "10.18.0"; "10.18.1"; "10.2.1"; "11.13.0"; "12.0.0";
    "12.1.0"; "12.12.0"; "12.13.0"; "12.14.0"; "12.14.1"; "12.16.0";
    "12.16.1"; "12.16.2"; "12.18.0"; "12.18.2"; "12.4.0"; "12.6.0";
    "12.8.1"; "13.1.0"; "13.3.0"; "13.6.0"; "13.8.0"; "14.0.0"; "centos7";
    "centos7-12.4.0"; "ubuntu16"; "ubuntu16-12.13.1"; "ubuntu16-8";
    "ubuntu18-node12.14.1"; "ubuntu19-node12.14.1" ].

Definition isSkipped (tag : string) : bool := Str.includes skipImages tag.

Definition isIncluded (imageAndTag : ImageTag) : bool :=
  negb (isSkipped (tag imageAndTag)).

(** The last line of the job of an image whose Node version is not
    checked. *)
Definition checkNodeVersionFalse : string :=
  "          checkNodeVersion: false" +:+ Str.nl.

Definition job (imageAndTag : ImageTag) : string :=
  let job :=
    ("      - build-base-image:" +:+ Str.nl) +:+
    ("          name: " +:+ Str.dq +:+ "base " +:+ tag imageAndTag
       +:+ Str.dq +:+ Str.nl) +:+
    ("          dockerTag: " +:+ Str.dq +:+ tag imageAndTag
       +:+ Str.dq +:+ Str.nl) in
  if String.eqb (tag imageAndTag) "12.0.0-libgbm"
     || String.eqb (tag imageAndTag) "manjaro-14.12.0"
  then job +:+ checkNodeVersionFalse
  else job.

(** The array [yml] of job blocks. *)
Definition yml (baseImages : list ImageTag) : list string :=
  List.map job (List.filter isIncluded baseImages).

Definition workflowName : string :=
  ("  build-base-images:" +:+ Str.nl) +:+ ("    jobs:" +:+ Str.nl).

End Base.

Definition formBaseWorkflow (baseImages : list ImageTag) : string :=
  Base.workflowName +:+ Str.join (Base.yml baseImages).

(** ** The workflow of the browser images *)

(** [a || b] on values that are a string or [null]. *)
Definition orElse (a b : option string) : option string :=
  match a with
  | Some s => if Str.truthy s then a else b
  | None => b
  end.

Definition isTruthy (a : option string) : bool :=
  match a with
  | Some s => Str.truthy s
  | None => false
  end.

Module Browsers.

(** Images that cannot be tested. *)
Definition skipImages : list string :=
  [ "chrome63-ff57"; "chrome65-ff57"; "chrome67"; "chrome67-ff57";
    "chrome69"; "node8.15.1-chrome73"; "node8.2.1-chrome73";
    "node8.9.3-chrome73"; "node8.9.3-npm6.10.1-chrome75";
    "node8.9.3-npm6.10.1-chrome76-ff68"; "node10.11.0-chrome75";
    "node10.16.0-chrome76"; "node10.16.0-chrome77";
    "node10.16.0-chrome77-ff71"; "node10.16.3-chrome80-ff73";
    "node10.2.1-chrome74"; "node11.13.0-chrome73"; "node12.0.0-chrome73";
    "node12.0.0-chrome73-ff68"; "node12.0.0-chrome75";
    "node12.13.0-chrome78-ff70"; "node12.13.0-chrome78-ff70-brave78";
    "node12.13.0-chrome80-ff73"; "node12.13.0-chrome80-ff74";
    "node12.14.0-chrome79-ff71"; "node12.14.1-chrome83-ff77";
    "node12.16.1-chrome80-ff73"; "node12.16.2-chrome81-ff75";
    "node12.18.0-chrome83-ff77"; "node12.4.0-chrome76";
    "node12.6.0-chrome75"; "node12.6.0-chrome77";
    "node12.8.1-chrome78-ff70"; "node12.8.1-chrome80-ff72";
    "node13.1.0-chrome78-ff70"; "node13.3.0-chrome79-ff70";
    "node13.6.0-chrome80-ff72" ].

Definition cannotFind (tag : string) : Exn :=
  Error ("Cannot find any browsers from image tag " +:+ Str.dq +:+ tag
           +:+ Str.dq).

(** The statement [if (version) { job += ... }] of each browser: the
    parameter line of a version that was found, nothing otherwise. *)
Definition parameter (key : string) (version : option string) : string :=
  if isTruthy version
  then "          " +:+ key +:+ ": " +:+ Str.dq +:+ default "" version
         +:+ Str.dq +:+ Str.nl
  else "".

Definition job (imageAndTag : ImageTag) : Completion string :=
  let chromeVersion := findChromeVersion (tag imageAndTag) in
  let firefoxVersion := findFirefoxVersion (tag imageAndTag) in
  let edgeVersion := findEdgeVersion (tag imageAndTag) in
  let foundBrowser :=
    orElse (orElse chromeVersion firefoxVersion) edgeVersion in
  if negb (isTruthy foundBrowser) then Throw (cannotFind (tag imageAndTag))
  else
    let job :=
      ("      - build-browser-image:" +:+ Str.nl) +:+
      ("          name: " +:+ Str.dq +:+ "browsers " +:+ tag imageAndTag
         +:+ Str.dq +:+ Str.nl) +:+
      ("          dockerTag: " +:+ Str.dq +:+ tag imageAndTag
         +:+ Str.dq +:+ Str.nl) in
    let job := job +:+ parameter "chromeVersion" chromeVersion in
    let job := job +:+ parameter "firefoxVersion" firefoxVersion in
    let job := job +:+ parameter "edgeVersion" edgeVersion in
    Return job.

Definition workflowName : string :=
  ("  build-browser-images:" +:+ Str.nl) +:+ ("    jobs:" +:+ Str.nl).

(** The body of [formBrowserWorkflow] with its skip list as an argument:
    the surviving images are selected first, then each of them is
    classified and rendered. *)
Section WithSkipList.

Variable skip : list string.

Definition isSkipped (tag : string) : bool := Str.includes skip tag.

Definition isIncluded (imageAndTag : ImageTag) : bool :=
  negb (isSkipped (tag imageAndTag)).

Definition yml (browserImages : list ImageTag)
    : Completion (list string) :=
  Exc.map job (List.filter isIncluded browserImages).

Definition form (browserImages : list ImageTag) : Completion string :=
  (yml <- yml browserImages ;;
   Return (workflowName +:+ Str.join yml))%exc.

End WithSkipList.

End Browsers.

Definition formBrowserWorkflow (browserImages : list ImageTag)
    : Completion string :=
  Browsers.form Browsers.skipImages browserImages.

(** ** The workflow of the included images *)

Module Included.

(** Images older than 6.0.0 have been built already. *)
Definition isSkipped (tag : string) : Completion bool :=
  semver.lt tag "6.0.0".

Definition isIncluded (imageAndTag : ImageTag) : Completion bool :=
  (skipped <- isSkipped (tag imageAndTag) ;; Return (negb skipped))%exc.

Definition job (imageAndTag : ImageTag) : string :=
  ("      - build-included-image:" +:+ Str.nl) +:+
  ("          name: " +:+ Str.dq +:+ "included " +:+ tag imageAndTag
     +:+ Str.dq +:+ Str.nl) +:+
  ("          dockerTag: " +:+ Str.dq +:+ tag imageAndTag
     +:+ Str.dq +:+ Str.nl).

Definition yml (images : list ImageTag) : Completion (list string) :=
  (kept <- Exc.filter isIncluded images ;;
   Return (List.map job kept))%exc.

Definition workflowName : string :=
  ("  build-included-images:" +:+ Str.nl) +:+ ("    jobs:" +:+ Str.nl).

End Included.

Definition formIncludedWorkflow (images : list ImageTag)
    : Completion string :=
  (yml <- Included.yml images ;;
   Return (Included.workflowName +:+ Str.join yml))%exc.

(** ** The static preamble

    The template literal [preamble]: an empty first line, then the lines
    below, each ended by a line feed. Its only hole is
    [path.basename(__filename)], the [script] argument. *)

Module Preamble.

Import Str.

(** The UTF-8 encoding of U+1F525. *)
Definition fire : string :=
  String "240" (String "159" (String "148" (String "165" ""))).

(** The first line, with the name of the script. *)
Definition header (script : string) : string :=
  "# WARNING: this file is automatically generated by " +:+ script.

(** The lines after it. *)
Definition body : list string :=
  [ "# info on building Docker images on Circle";
    "# https://circleci.com/docs/2.0/building-docker-images/";
    "version: 2.1";
    "";
    "orbs:";
    "  node: circleci/node@1.1";
    "";
    "commands:";
    "  halt-on-branch:";
    "    description: Halt current CircleCI job if not on master branch";
    "    steps:";
    "      - run:";
    "          name: Halting job if not on master branch";
    "          command: |";
    "            if [[ " +:+ dq +:+ "$CIRCLE_BRANCH" +:+ dq +:+ " != " +:+ dq +:+ "master" +:+ dq +:+ " ]]; then";
    "              echo " +:+ dq +:+ "Not master branch, will skip the rest of commands" +:+ dq;
    "              circleci-agent step halt";
    "            else";
    "              echo " +:+ dq +:+ "On master branch, can continue" +:+ dq;
    "            fi";
    "";
    "  halt-if-docker-image-exists:";
    "    description: Halt current CircleCI job if Docker image exists already";
    "    parameters:";
    "      imageName:";
    "        type: string";
    "        description: Docker image name to test";
    "    steps:";
    "      - run:";
    "          name: Check if image << parameters.imageName >> exists or Docker hub does not respond";
    "          # using https://github.com/cypress-io/docker-image-not-found";
    "          # to check if Docker hub definitely does not have this image";
    "          command: |";
    "            if npx docker-image-not-found --repo << parameters.imageName >>; then";
    "              echo Docker hub says image << parameters.imageName >> does not exist";
    "            else";
    "              echo Docker hub has image << parameters.imageName >> or not responding";
    "              echo We should stop in this case";
    "              circleci-agent step halt";
    "            fi";
    "";
    "  test-base-image:";
    "    description: Build a test image from base image and test it";
    "    parameters:";
    "      nodeVersion:";
    "        type: string";
    "        description: Node version to expect in the base image, starts with " +:+ dq +:+ "v" +:+ dq;
    "      imageName:";
    "        type: string";
    "        description: Cypress base docker image to test";
    "      checkNodeVersion:";
    "        type: boolean";
    "        description: Check if the FROM image name is strict Node version";
    "        default: true";
    "    steps:";
    "      - when:";
    "          condition: << parameters.checkNodeVersion >>";
    "          steps:";
    "          - run:";
    "              name: confirm image has Node << parameters.nodeVersion >>";
    "              # do not run Docker in the interactive mode - adds control characters!";
    "              command: |";
    "                version=$(docker run << parameters.imageName >> node --version)";
    "                if [ " +:+ dq +:+ "$version" +:+ dq +:+ " == " +:+ dq +:+ "<< parameters.nodeVersion >>" +:+ dq +:+ " ]; then";
    "                  echo " +:+ dq +:+ "Base image has the expected version of Node << parameters.nodeVersion >>" +:+ dq +:+ ";";
    "                else";
    "                  echo " +:+ dq +:+ "Problem: base image has unexpected Node version" +:+ dq;
    "                  echo " +:+ dq +:+ "Expected << parameters.nodeVersion >> and got $version" +:+ dq;
    "                  exit 1";
    "                fi";
    "      - run:";
    "          name: test image << parameters.imageName >>";
    "          no_output_timeout: '3m'";
    "          command: |";
    "            docker build -t cypress/test -\<<EOF";
    "            FROM << parameters.imageName >>";
    "            RUN echo " +:+ dq +:+ "current user: $(whoami)" +:+ dq;
    "            ENV CI=1";
    "            RUN npm init --yes";
    "            RUN npm install --save-dev cypress cypress-expect";
    "            RUN ./node_modules/.bin/cypress verify";
    "            RUN npx @bahmutov/cly init";
    "            # run Cypress by itself";
    "            RUN ./node_modules/.bin/cypress run";
    "            # run Cypress using module API and confirm number of passing tests";
    "            RUN ./node_modules/.bin/cypress-expect run --passing 1";
    "            EOF";
    "";
    "      - run:";
    "          name: test image << parameters.imageName >> using Kitchensink";
    "          no_output_timeout: '3m'";
    "          command: |";
    "            docker build -t cypress/test-kitchensink -\<<EOF";
    "            FROM << parameters.imageName >>";
    "            RUN echo " +:+ dq +:+ "current user: $(whoami)" +:+ dq;
    "            ENV CI=1";
    "            ENV CYPRESS_INTERNAL_FORCE_SCAFFOLD=1";
    "            RUN npm init --yes";
    "            RUN npm install --save-dev cypress cypress-expect";
    "            RUN ./node_modules/.bin/cypress verify";
    "            RUN echo '{}' > cypress.json";
    "            # run Cypress and confirm minimum number of passing tets";
    "            RUN ./node_modules/.bin/cypress-expect run --min-passing 100";
    "            EOF";
    "";
    "  test-browser-image:";
    "    description: Build a test image from browser image and test it";
    "    parameters:";
    "      imageName:";
    "        type: string";
    "        description: Cypress browser docker image to test";
    "      chromeVersion:";
    "        type: string";
    "        default: ''";
    "        description: Chrome version to expect in the base image, starts with " +:+ dq +:+ "Google Chrome XX" +:+ dq;
    "      firefoxVersion:";
    "        type: string";
    "        default: ''";
    "        description: Firefox version to expect in the base image, starts with " +:+ dq +:+ "Mozilla Firefox XX" +:+ dq;
    "      edgeVersion:";
    "        type: string";
    "        default: ''";
    "        description: Edge version to expect in the base image, starts with " +:+ dq +:+ "Microsoft Edge XX" +:+ dq;
    "    steps:";
    "      - when:";
    "          condition: << parameters.chromeVersion >>";
    "          steps:";
    "          - run:";
    "              name: confirm image has Chrome << parameters.chromeVersion >>";
    "              # do not run Docker in the interactive mode - adds control characters!";
    "              # and use Bash regex string comparison";
    "              command: |";
    "                version=$(docker run << parameters.imageName >> google-chrome --version)";
    "                if [[ " +:+ dq +:+ "$version" +:+ dq +:+ " =~ ^" +:+ dq +:+ "<< parameters.chromeVersion >>" +:+ dq +:+ " ]]; then";
    "                  echo " +:+ dq +:+ "Image has the expected version of Chrome << parameters.chromeVersion >>" +:+ dq;
    "                  echo " +:+ dq +:+ "found $version" +:+ dq;
    "                else";
    "                  echo " +:+ dq +:+ "Problem: image has unexpected Chrome version" +:+ dq;
    "                  echo " +:+ dq +:+ "Expected << parameters.chromeVersion >> and got $version" +:+ dq;
    "                  exit 1";
    "                fi";
    "";
    "      - when:";
    "          condition: << parameters.firefoxVersion >>";
    "          steps:";
    "          - run:";
    "              name: confirm the image has Firefox << parameters.firefoxVersion >>";
    "              command: |";
    "                version=$(docker run << parameters.imageName >> firefox --version)";
    "                if [[ " +:+ dq +:+ "$version" +:+ dq +:+ " =~ ^" +:+ dq +:+ "<< parameters.firefoxVersion >>" +:+ dq +:+ " ]]; then";
    "                  echo " +:+ dq +:+ "Image has the expected version of Firefox << parameters.firefoxVersion >>" +:+ dq;
    "                  echo " +:+ dq +:+ "found $version" +:+ dq;
    "                else";
    "                  echo " +:+ dq +:+ "Problem: image has unexpected Firefox version" +:+ dq;
    "                  echo " +:+ dq +:+ "Expected << parameters.firefoxVersion >> and got $version" +:+ dq;
    "                  exit 1";
    "                fi";
    "";
    "      - when:";
    "          condition: << parameters.edgeVersion >>";
    "          steps:";
    "          - run:";
    "              name: confirm the image has Edge << parameters.edgeVersion >>";
    "              command: |";
    "                version=$(docker run << parameters.imageName >> edge --version)";
    "                if [[ " +:+ dq +:+ "$version" +:+ dq +:+ " =~ ^" +:+ dq +:+ "<< parameters.edgeVersion >>" +:+ dq +:+ " ]]; then";
    "                  echo " +:+ dq +:+ "Image has the expected version of Edge << parameters.edgeVersion >>" +:+ dq;
    "                  echo " +:+ dq +:+ "found $version" +:+ dq;
    "                else";
    "                  echo " +:+ dq +:+ "Problem: image has unexpected Edge version" +:+ dq;
    "                  echo " +:+ dq +:+ "Expected << parameters.edgeVersion >> and got $version" +:+ dq;
    "                  exit 1";
    "                fi";
    "";
    "      - run:";
    "          name: test image << parameters.imageName >>";
    "          no_output_timeout: '3m'";
    "          command: |";
    "            docker build -t cypress/test -\<<EOF";
    "            FROM << parameters.imageName >>";
    "            RUN echo " +:+ dq +:+ "current user: $(whoami)" +:+ dq;
    "            ENV CI=1";
    "            RUN npm init --yes";
    "            RUN npm install --save-dev cypress";
    "            RUN ./node_modules/.bin/cypress verify";
    "            RUN npx @bahmutov/cly init";
    "            EOF";
    "";
    "      - run:";
    "          name: Test built-in Electron browser";
    "          no_output_timeout: '1m'";
    "          command: docker run cypress/test ./node_modules/.bin/cypress run";
    "";
    "      - when:";
    "          condition: << parameters.chromeVersion >>";
    "          steps:";
    "          - run:";
    "              name: Test << parameters.chromeVersion >>";
    "              no_output_timeout: '1m'";
    "              command: docker run cypress/test ./node_modules/.bin/cypress run --browser chrome";
    "";
    "      - when:";
    "          condition: << parameters.firefoxVersion >>";
    "          steps:";
    "          - run:";
    "              name: Test << parameters.firefoxVersion >>";
    "              no_output_timeout: '1m'";
    "              command: docker run cypress/test ./node_modules/.bin/cypress run --browser firefox";
    "";
    "      - when:";
    "          condition: << parameters.edgeVersion >>";
    "          steps:";
    "          - run:";
    "              name: Test << parameters.edgeVersion >>";
    "              no_output_timeout: '1m'";
    "              command: docker run cypress/test ./node_modules/.bin/cypress run --browser edge";
    "";
    "      - run:";
    "          name: scaffold image << parameters.imageName >> using Kitchensink";
    "          no_output_timeout: '3m'";
    "          command: |";
    "            docker build -t cypress/test-kitchensink -\<<EOF";
    "            FROM << parameters.imageName >>";
    "            RUN echo " +:+ dq +:+ "current user: $(whoami)" +:+ dq;
    "            ENV CI=1";
    "            ENV CYPRESS_INTERNAL_FORCE_SCAFFOLD=1";
    "            RUN npm init --yes";
    "            RUN npm install --save-dev cypress";
    "            RUN ./node_modules/.bin/cypress verify";
    "            RUN echo '{}' > cypress.json";
    "            EOF";
    "";
    "      - when:";
    "          condition: << parameters.chromeVersion >>";
    "          steps:";
    "          - run:";
    "              name: Test << parameters.chromeVersion >>";
    "              no_output_timeout: '1m'";
    "              command: docker run cypress/test-kitchensink ./node_modules/.bin/cypress run --browser chrome";
    "";
    "      - when:";
    "          condition: << parameters.firefoxVersion >>";
    "          steps:";
    "          - run:";
    "              name: Test << parameters.firefoxVersion >>";
    "              no_output_timeout: '1m'";
    "              command: docker run cypress/test-kitchensink ./node_modules/.bin/cypress run --browser firefox";
    "";
    "      - when:";
    "          condition: << parameters.edgeVersion >>";
    "          steps:";
    "          - run:";
    "              name: Test << parameters.edgeVersion >>";
    "              no_output_timeout: '1m'";
    "              command: docker run cypress/test-kitchensink ./node_modules/.bin/cypress run --browser edge";
    "";
    "  test-included-image-versions:";
    "    description: Testing pre-installed versions";
    "    parameters:";
    "      cypressVersion:";
    "        type: string";
    "        description: Cypress version to test, like " +:+ dq +:+ "4.0.0" +:+ dq;
    "      imageName:";
    "        type: string";
    "        description: Cypress included docker image to test";
    "    steps:";
    "      - run:";
    "          name: 'Print versions'";
    "          command: docker run -it --entrypoint cypress cypress/included:<< parameters.cypressVersion >> version";
    "";
    "      - run:";
    "          name: 'Print info'";
    "          command: docker run -it --entrypoint cypress cypress/included:<< parameters.cypressVersion >> info";
    "";
    "      - run:";
    "          name: 'Check Node version'";
    "          command: |";
    "            export NODE_VERSION=$(docker run --entrypoint node cypress/included:<< parameters.cypressVersion >> --version)";
    "            export CYPRESS_NODE_VERSION=$(docker run --entrypoint cypress cypress/included:<< parameters.cypressVersion >> version --component node)";
    "            echo " +:+ dq +:+ "Included Node $NODE_VERSION" +:+ dq;
    "            echo " +:+ dq +:+ "Cypress includes Node $CYPRESS_NODE_VERSION" +:+ dq;
    "            # " +:+ dq +:+ "node --version" +:+ dq +:+ " returns something like " +:+ dq +:+ "v12.1.2" +:+ dq;
    "            # and " +:+ dq +:+ "cypres version ..." +:+ dq +:+ " returns just " +:+ dq +:+ "12.1.2" +:+ dq;
    "            if [ " +:+ dq +:+ "$NODE_VERSION" +:+ dq +:+ " = " +:+ dq +:+ "v$CYPRESS_NODE_VERSION" +:+ dq +:+ " ]; then";
    "              echo " +:+ dq +:+ "Node versions match" +:+ dq;
    "            else";
    "              echo " +:+ dq +:+ "Node version mismatch " +:+ fire +:+ dq;
    "              # TODO make sure there are no extra characters in the versions";
    "              # https://github.com/cypress-io/cypress-docker-images/issues/411";
    "              # exit 1";
    "            fi";
    "";
    "  test-included-image:";
    "    description: Testing Docker image with Cypress pre-installed";
    "    parameters:";
    "      cypressVersion:";
    "        type: string";
    "        description: Cypress version to test, like " +:+ dq +:+ "4.0.0" +:+ dq;
    "      imageName:";
    "        type: string";
    "        description: Cypress included docker image to test";
    "    steps:";
    "      - run:";
    "          name: New test project and testing";
    "          no_output_timeout: '3m'";
    "          command: |";
    "            node --version";
    "            mkdir test";
    "            cd test";
    "            echo " +:+ dq +:+ "Initializing test project" +:+ dq;
    "            npx @bahmutov/cly init --cypress-version << parameters.cypressVersion >>";
    "";
    "            echo " +:+ dq +:+ "Testing using Electron browser" +:+ dq;
    "            docker run -it -v $PWD:/e2e -w /e2e cypress/included:<< parameters.cypressVersion >>";
    "";
    "            echo " +:+ dq +:+ "Testing using Chrome browser" +:+ dq;
    "            docker run -it -v $PWD:/e2e -w /e2e cypress/included:<< parameters.cypressVersion >> --browser chrome";
    "          working_directory: /tmp";
    "";
    "  test-included-image-using-kitchensink:";
    "    description: Testing Cypress pre-installed using Kitchensink";
    "    parameters:";
    "      cypressVersion:";
    "        type: string";
    "        description: Cypress version to test, like " +:+ dq +:+ "4.0.0" +:+ dq;
    "      imageName:";
    "        type: string";
    "        description: Cypress included docker image to test";
    "    steps:";
    "      - run:";
    "          name: Testing Kitchensink";
    "          no_output_timeout: '3m'";
    "          command: |";
    "            node --version";
    "            mkdir test-kitchensink";
    "            cd test-kitchensink";
    "";
    "            npm init -y";
    "            echo '{}' > cypress.json";
    "";
    "            echo " +:+ dq +:+ "Testing using Electron browser" +:+ dq;
    "            docker run -it -v $PWD:/e2e -w /e2e -e CYPRESS_INTERNAL_FORCE_SCAFFOLD=1 cypress/included:<< parameters.cypressVersion >>";
    "";
    "            echo " +:+ dq +:+ "Testing using Chrome browser" +:+ dq;
    "            docker run -it -v $PWD:/e2e -w /e2e -e CYPRESS_INTERNAL_FORCE_SCAFFOLD=1 cypress/included:<< parameters.cypressVersion >> --browser chrome";
    "";
    "          working_directory: /tmp";
    "";
    "  docker-push:";
    "    description: Log in and push a given image to Docker hub";
    "    parameters:";
    "      imageName:";
    "        type: string";
    "        description: Docker image name to push";
    "    steps:";
    "      # before pushing, let's check again that the Docker Hub does not have the image";
    "      # accidental rebuild and overwrite of an image is bad, since it can bump every tool";
    "      # https://github.com/cypress-io/cypress/issues/6335";
    "      - halt-if-docker-image-exists:";
    "          imageName: << parameters.imageName >>";
    "      - run:";
    "          name: Pushing image << parameters.imageName >> to Docker Hub";
    "          command: |";
    "            echo " +:+ dq +:+ "$DOCKERHUB_PASS" +:+ dq +:+ " | docker login -u " +:+ dq +:+ "$DOCKERHUB_USERNAME" +:+ dq +:+ " --password-stdin";
    "            docker push << parameters.imageName >>";
    "";
    "jobs:";
    "  lint-markdown:";
    "    executor:";
    "      name: node/default";
    "      tag: '12'";
    "    steps:";
    "      - checkout";
    "      - node/with-cache:";
    "          steps:";
    "            - run: npm ci";
    "      - run: npm run check:markdown";
    "";
    "  build-base-image:";
    "    machine: true";
    "    parameters:";
    "      dockerName:";
    "        type: string";
    "        description: Image name to build";
    "        default: cypress/base";
    "      dockerTag:";
    "        type: string";
    "        description: Image tag to build like " +:+ dq +:+ "12.14.0" +:+ dq;
    "      checkNodeVersion:";
    "        type: boolean";
    "        description: Check if the FROM image name is strict Node version";
    "        default: true";
    "    steps:";
    "      - checkout";
    "      - halt-if-docker-image-exists:";
    "          imageName: << parameters.dockerName >>:<< parameters.dockerTag >>";
    "      - run:";
    "          name: building Docker image << parameters.dockerName >>:<< parameters.dockerTag >>";
    "          command: |";
    "            docker build -t << parameters.dockerName >>:<< parameters.dockerTag >> .";
    "          working_directory: base/<< parameters.dockerTag >>";
    "";
    "      - test-base-image:";
    "          nodeVersion: v<< parameters.dockerTag >>";
    "          imageName: << parameters.dockerName >>:<< parameters.dockerTag >>";
    "          checkNodeVersion: << parameters.checkNodeVersion >>";
    "      - halt-on-branch";
    "      - docker-push:";
    "          imageName: << parameters.dockerName >>:<< parameters.dockerTag >>";
    "";
    "  build-browser-image:";
    "    machine: true";
    "    parameters:";
    "      dockerName:";
    "        type: string";
    "        description: Image name to build";
    "        default: cypress/browsers";
    "      dockerTag:";
    "        type: string";
    "        description: Image tag to build like " +:+ dq +:+ "node12.4.0-chrome76" +:+ dq;
    "      chromeVersion:";
    "        type: string";
    "        default: ''";
    "        description: Chrome version to expect in the base image, starts with " +:+ dq +:+ "Google Chrome XX" +:+ dq;
    "      firefoxVersion:";
    "        type: string";
    "        default: ''";
    "        description: Firefox version to expect in the base image, starts with " +:+ dq +:+ "Mozilla Firefox XX" +:+ dq;
    "      edgeVersion:";
    "        type: string";
    "        default: ''";
    "        description: Edge version to expect in the base image, starts with " +:+ dq +:+ "Microsoft Edge XX" +:+ dq;
    "    steps:";
    "      - checkout";
    "      - halt-if-docker-image-exists:";
    "          imageName: << parameters.dockerName >>:<< parameters.dockerTag >>";
    "      - run:";
    "          name: building Docker image << parameters.dockerName >>:<< parameters.dockerTag >>";
    "          command: |";
    "            docker build -t << parameters.dockerName >>:<< parameters.dockerTag >> .";
    "          working_directory: browsers/<< parameters.dockerTag >>";
    "      - test-browser-image:";
    "          imageName: << parameters.dockerName >>:<< parameters.dockerTag >>";
    "          chromeVersion: << parameters.chromeVersion >>";
    "          firefoxVersion: << parameters.firefoxVersion >>";
    "          edgeVersion: << parameters.edgeVersion >>";
    "      - halt-on-branch";
    "      - docker-push:";
    "          imageName: << parameters.dockerName >>:<< parameters.dockerTag >>";
    "";
    "  build-included-image:";
    "    machine: true";
    "    parameters:";
    "      dockerName:";
    "        type: string";
    "        description: Image name to build";
    "        default: cypress/included";
    "      dockerTag:";
    "        type: string";
    "        description: Image tag to build, should match Cypress version, like " +:+ dq +:+ "3.8.1" +:+ dq;
    "    steps:";
    "      - checkout";
    "      # temporarily in this PR";
    "      # - halt-if-docker-image-exists:";
    "      #    imageName: << parameters.dockerName >>:<< parameters.dockerTag >>";
    "      - run:";
    "          name: building Docker image << parameters.dockerName >>:<< parameters.dockerTag >>";
    "          command: |";
    "            docker build -t << parameters.dockerName >>:<< parameters.dockerTag >> .";
    "          working_directory: included/<< parameters.dockerTag >>";
    "";
    "      - test-included-image-versions:";
    "          cypressVersion: << parameters.dockerTag >>";
    "          imageName: << parameters.dockerName >>:<< parameters.dockerTag >>";
    "";
    "      - test-included-image:";
    "          cypressVersion: << parameters.dockerTag >>";
    "          imageName: << parameters.dockerName >>:<< parameters.dockerTag >>";
    "";
    "      - test-included-image-using-kitchensink:";
    "          cypressVersion: << parameters.dockerTag >>";
    "          imageName: << parameters.dockerName >>:<< parameters.dockerTag >>";
    "";
    "      - halt-on-branch";
    "      - docker-push:";
    "          imageName: << parameters.dockerName >>:<< parameters.dockerTag >>";
    "";
    "workflows:";
    "  version: 2";
    "  lint:";
    "    jobs:";
    "      - lint-markdown" ].

Definition lines (script : string) : list string := header script :: body.

End Preamble.

Definition preamble (script : string) : string :=
  Str.nl +:+ Str.unlines (Preamble.lines script).

(** ** The process and its effects *)

Inductive Platform : Type := posix | win32.

(** [os.EOL] *)
Definition EOL (p : Platform) : string :=
  match p with
  | posix => Str.nl
  | win32 => Str.cr +:+ Str.nl
  end.

(** What the run takes from where it runs: the platform, and
    [path.basename(__filename)]. *)
Record Runtime : Type := {
  platform : Platform;
  script : string
}.

(** What [console.log] was given. *)
Inductive Log : Type :=
| Text (s : string)
| Images (l : list ImageTag).

(** The working directory, as the contents of its files, and the console. *)
Record World : Type := {
  files : gmap string string;
  console : list Log
}.

Module IO.

Definition t (A : Type) : Type := World -> Completion A * World.

Definition ret {A} (a : A) : t A := fun w => (Return a, w).

Definition bind {A B} (m : t A) (k : A -> t B) : t B :=
  fun w =>
    match m w with
    | (Return a, w') => k a w'
    | (Throw e, w') => (Throw e, w')
    end.

(** A computation without effects: the world stays as it is, also when it
    throws. *)
Definition lift {A} (c : Completion A) : t A := fun w => (c, w).

Definition log (entry : Log) : t unit :=
  fun w =>
    (Return tt, {| files := files w; console := console w ++ [entry] |}).

(** [fs.writeFileSync(path, text, 'utf8')] in a directory in which the
    file can be written: the file is created or wholly replaced. Where the
    path is not writable the call throws instead; permissions are not part
    of [World], so that exception is outside the model, and what is stated
    of a run that returns is stated of a run whose write goes through. *)
Definition writeFileSync (path text : string) : t unit :=
  fun w =>
    (Return tt,
     {| files := <[path := text]> (files w); console := console w |}).

End IO.

Declare Scope io_scope.
Delimit Scope io_scope with io.
Notation "x <- m ;; k" := (IO.bind m (fun x => k))
  (at level 100, m at next level, right associativity) : io_scope.
Notation "m ;; k" := (IO.bind m (fun _ => k))
  (at level 100, right associativity) : io_scope.

(** The workflows are formed in the order base, browsers, included; the
    file is written once the whole text exists. *)
Definition writeConfigFile (rt : Runtime)
    (baseImages browserImages includedImages : list ImageTag) : IO.t unit :=
  (let base := formBaseWorkflow baseImages in
   browsers <- IO.lift (formBrowserWorkflow browserImages) ;;
   included <- IO.lift (formIncludedWorkflow includedImages) ;;
   let text :=
     Str.trim (preamble (script rt)) +:+ EOL (platform rt) +:+ base
       +:+ EOL (platform rt) +:+ browsers +:+ EOL (platform rt)
       +:+ included in
   IO.writeFileSync "circle.yml" text ;;
   IO.log (Text "generated circle.yml"))%io.

(** The body of the script after the three scans: its arguments are the
    folders that [globby] found, split into name and tag. An exception that
    leaves [main] is not caught by the script. *)
Definition main (rt : Runtime) (base browsers included : list ImageTag)
    : IO.t unit :=
  (IO.log (Text " *** base images ***") ;;
   IO.log (Images base) ;;
   IO.log (Text " *** browser images ***") ;;
   IO.log (Images browsers) ;;
   IO.log (Text " *** included images ***") ;;
   IO.log (Images included) ;;
   writeConfigFile rt base browsers included)%io.

(** ** The exit status

    The script sets no exit status and catches nothing. An exception that
    leaves [main] rejects the promise of the async function, and nothing
    handles the rejection; what the process then exits with is decided by
    the Node runtime, by its mode [--unhandled-rejections]. The modes
    [throw] (the default since Node 15), [strict] and [warn-with-error-code]
    end the process with status 1; the modes [warn] and [none] let it end
    with status 0, as the default of Node before version 15 did, which
    printed a warning only. *)

Module Node.

Inductive UnhandledRejections : Type :=
| throw
| strict
| warn
| none
| warn_with_error_code.

Definition exitCode (mode : UnhandledRejections) (outcome : Completion unit)
    : nat :=
  match outcome with
  | Return _ => 0
  | Throw _ =>
      match mode with
      | throw | strict | warn_with_error_code => 1
      | warn | none => 0
      end
  end.

End Node.

(** ** Notions used in the statements *)

(** [digits] is a digit group that [/marker(\d+)/] can capture in [tag]: a
    non-empty run of digits right after an occurrence of [marker], not
    followed by a further digit. *)
Definition MatchesGroup (marker tag digits : string) : Prop :=
  exists before after,
    tag = before +:+ marker +:+ digits +:+ after /\
    digits <> "" /\
    Str.every Str.isDigit digits = true /\
    Str.takeDigits after = "".

(** The threshold of the included images, as [semver] parses it. *)
Definition v6_0_0 : semver.SemVer :=
  {| semver.major := 6; semver.minor := 0; semver.patch := 0;
     semver.prerelease := []; semver.build := [] |}.

(** The three lines every base job has. *)
Definition baseJobLines (tag : string) : string :=
  ("      - build-base-image:" +:+ Str.nl) +:+
  ("          name: " +:+ Str.dq +:+ "base " +:+ tag +:+ Str.dq +:+ Str.nl) +:+
  ("          dockerTag: " +:+ Str.dq +:+ tag +:+ Str.dq +:+ Str.nl).

(** None of the three patterns matches in [tag]. *)
Definition Unclassifiable (tag : string) : Prop :=
  RegExp.exec "chrome" tag = None /\
  RegExp.exec "-ff" tag = None /\
  RegExp.exec "-edge" tag = None.

(** Some pattern matches in [tag]. *)
Definition classifiable (tag : string) : bool :=
  match RegExp.exec "chrome" tag, RegExp.exec "-ff" tag,
        RegExp.exec "-edge" tag with
  | None, None, None => false
  | _, _, _ => true
  end.

(** The world after the six [console.log] calls of the script. *)
Definition announced (base browsers included : list ImageTag) (w : World)
    : World :=
  {| files := files w;
     console :=
       console w ++ [Text " *** base images ***"] ++ [Images base]
         ++ [Text " *** browser images ***"] ++ [Images browsers]
         ++ [Text " *** included images ***"] ++ [Images included] |}.

(** The world after [circle.yml] was written and reported. *)
Definition written (text : string) (w : World) : World :=
  {| files := <["circle.yml" := text]> (files w);
     console := console w ++ [Text "generated circle.yml"] |}.

(** Whether the included images skip a tag, as a plain boolean. *)
Definition includedSkips (tag : string) : bool :=
  Exc.answer Included.isSkipped tag.

(** The job blocks [yml] are the blocks of a selection [kept] of the
    images, one block per selected image and in the same order, and the
    selection has every tag that is not skipped as often as the scanned
    folders have it (once, for the folders of one directory) and no tag that
    is skipped. *)
Definition OneJobPerTag (renders : ImageTag -> string -> Prop)
    (skipped : string -> bool) (images : list ImageTag) (yml : list string)
    : Prop :=
  exists kept : list ImageTag,
    Forall2 renders kept yml /\
    forall t : string,
      count_occ string_dec (List.map tag kept) t
      = if skipped t then 0
        else count_occ string_dec (List.map tag images) t.

(** [text.split('\n')], the lines of a text. *)
Definition linesOf (text : string) : list string := Str.split "010" text.

(** A string without line feed, as the name of a folder normally is. *)
Definition lineFeedFree (s : string) : bool :=
  Str.every (fun c => negb (Ascii.eqb c "010")) s.

(** The line that gives a job its tag. *)
Definition dockerTagLine (t : string) : string :=
  "          dockerTag: " +:+ Str.dq +:+ t +:+ Str.dq.

(** In the text of a workflow, a tag that is not skipped has as many
    [dockerTag] lines as the scanned folders have the tag (one, for the
    folders of one directory), and a tag that is skipped has none. *)
Definition OneDockerTagLinePerTag (skipped : string -> bool)
    (images : list ImageTag) (workflow : string) : Prop :=
  forall t : string,
    count_occ string_dec (linesOf workflow) (dockerTagLine t)
    = if skipped t then 0
      else count_occ string_dec (List.map tag images) t.

(** The lines of the job blocks. *)
Definition baseJobLineList (i : ImageTag) : list string :=
  [ "      - build-base-image:";
    "          name: " +:+ Str.dq +:+ "base " +:+ tag i +:+ Str.dq;
    dockerTagLine (tag i) ]
  ++ (if String.eqb (tag i) "12.0.0-libgbm"
         || String.eqb (tag i) "manjaro-14.12.0"
      then [ "          checkNodeVersion: false" ] else []).

Definition parameterLines (key : string) (version : option string)
    : list string :=
  if isTruthy version
  then [ "          " +:+ key +:+ ": " +:+ Str.dq +:+ default "" version
           +:+ Str.dq ]
  else [].

Definition browserJobLineList (i : ImageTag) : list string :=
  [ "      - build-browser-image:";
    "          name: " +:+ Str.dq +:+ "browsers " +:+ tag i +:+ Str.dq;
    dockerTagLine (tag i) ]
  ++ parameterLines "chromeVersion" (findChromeVersion (tag i))
  ++ parameterLines "firefoxVersion" (findFirefoxVersion (tag i))
  ++ parameterLines "edgeVersion" (findEdgeVersion (tag i)).

Definition includedJobLineList (i : ImageTag) : list string :=
  [ "      - build-included-image:";
    "          name: " +:+ Str.dq +:+ "included " +:+ tag i +:+ Str.dq;
    dockerTagLine (tag i) ].

(** A run on a POSIX system, in a directory that has a [circle.yml] of an
    earlier run. *)
Definition sampleRuntime : Runtime :=
  {| platform := posix; script := "generate-config.js" |}.

Definition sampleWorld : World :=
  {| files := {[ "circle.yml" := "version: 2" ]}; console := [] |}.

Definition sampleBase : list ImageTag :=
  [ {| name := "base"; tag := "10.0.0" |};
    {| name := "base"; tag := "12.0.0-libgbm" |};
    {| name := "base"; tag := "14.5.0" |} ].

Definition sampleBrowsers : list ImageTag :=
  [ {| name := "browsers"; tag := "node12.4.0-chrome76" |};
    {| name := "browsers"; tag := "node14.0.0-chrome84-ff78" |} ].

Definition sampleIncluded : list ImageTag :=
  [ {| name := "included"; tag := "5.4.0" |};
    {| name := "included"; tag := "6.0.0" |};
    {| name := "included"; tag := "7.0.0" |} ].

(** ** The scanned folders

    [globby('base/*')] gives paths such as [base/12.0.0]. A path is split
    at its separators and the first two parts are taken by destructuring: a
    part that is not there is [undefined], here [None]. *)

Module Folder.

Record NameAndTag : Type := {
  name : option string;
  tag : option string
}.

End Folder.

Definition splitImageFolderName (folderName : string) : Folder.NameAndTag :=
  let parts := Str.split "/" folderName in
  {| Folder.name := nth_error parts 0; Folder.tag := nth_error parts 1 |}.

(** A string without a path separator, as the name of a folder is. *)
Definition slashFree (s : string) : bool :=
  Str.every (fun c => negb (Ascii.eqb c "/")) s.

(** The six entries that the script prints before it writes. *)
Definition scanReport (base browsers included : list ImageTag) : list Log :=
  [ Text " *** base images ***"; Images base;
    Text " *** browser images ***"; Images browsers;
    Text " *** included images ***"; Images included ].

(** A tag that [semver] reads as a version. *)
Definition isVersion (tag : string) : Prop :=
  exists v, semver.parse tag = Return v.

(** The parameter line of a browser that a pattern found in the tag: the
    key, and the vendor followed by the captured digits, in quotes. *)
Definition versionLines (key vendor : string)
    (matches : option (string * string)) : list string :=
  match matches with
  | Some (_, digits) =>
      [ "          " +:+ key +:+ ": " +:+ Str.dq +:+ vendor +:+ digits
          +:+ Str.dq ]
  | None => []
  end.

(** * Properties *)

(** ** Strings *)

#[local] Arguments String.append !s1 s2 : simpl nomatch.
#[local] Arguments preamble : simpl never.
#[local] Arguments Str.trim : simpl never.

Module StrFacts.

Lemma app_nil_r (s : string) : s +:+ "" = s.
Proof. induction s as [|c s IH]; cbn; [reflexivity | now rewrite IH]. Qed.

Lemma app_assoc (a b c : string) : (a +:+ b) +:+ c = a +:+ b +:+ c.
Proof. induction a as [|x a IH]; cbn; [reflexivity | now rewrite IH]. Qed.

Lemma app_inv_head (a b c : string) : a +:+ b = a +:+ c -> b = c.
Proof.
  induction a as [|x a IH]; cbn; intros H; [exact H|].
  injection H. exact IH.
Qed.

Lemma rev_app_spec (a b : string) :
  String.rev_app a b = String.rev a +:+ b.
Proof.
  unfold String.rev. revert b.
  induction a as [|x a IH]; intros b; cbn; [reflexivity|].
  rewrite (IH (String x b)), (IH (String x "")), app_assoc. reflexivity.
Qed.

Lemma rev_cons (x : ascii) (a : string) :
  String.rev (String x a) = String.rev a +:+ String x "".
Proof. unfold String.rev at 1. cbn. apply rev_app_spec. Qed.

Lemma rev_app (a b : string) :
  String.rev (a +:+ b) = String.rev b +:+ String.rev a.
Proof.
  induction a as [|x a IH].
  - cbn. now rewrite app_nil_r.
  - change (String x a +:+ b) with (String x (a +:+ b)).
    now rewrite !rev_cons, IH, app_assoc.
Qed.

Lemma rev_involutive (a : string) : String.rev (String.rev a) = a.
Proof.
  induction a as [|x a IH]; [reflexivity|].
  now rewrite rev_cons, rev_app, IH.
Qed.

Lemma app_inv_tail (a b c : string) : a +:+ c = b +:+ c -> a = b.
Proof.
  intros H. apply (f_equal String.rev) in H. rewrite !rev_app in H.
  apply app_inv_head in H. apply (f_equal String.rev) in H.
  now rewrite !rev_involutive in H.
Qed.

Lemma stripPrefix_app (p s : string) : Str.stripPrefix p (p +:+ s) = Some s.
Proof.
  induction p as [|x p IH]; cbn; [now destruct s|].
  now rewrite Ascii.eqb_refl.
Qed.

Lemma stripPrefix_Some (p s r : string) :
  Str.stripPrefix p s = Some r -> s = p +:+ r.
Proof.
  revert s. induction p as [|x p IH]; intros s; cbn.
  - destruct s; intros [= <-]; reflexivity.
  - destruct s as [|y s]; [discriminate|].
    destruct (Ascii.eqb x y) eqn:E; [|discriminate].
    apply Ascii.eqb_eq in E as <-. intros H. now rewrite (IH _ H).
Qed.

Lemma startsWith_iff (s p : string) :
  Str.startsWith s p = true <-> exists r, s = p +:+ r.
Proof.
  unfold Str.startsWith. split.
  - destruct (Str.stripPrefix p s) as [r|] eqn:E; [|discriminate].
    intros _. exists r. now apply stripPrefix_Some.
  - intros [r ->]. now rewrite stripPrefix_app.
Qed.

Lemma endsWith_iff (s p : string) :
  Str.endsWith s p = true <-> exists a, s = a +:+ p.
Proof.
  unfold Str.endsWith. rewrite startsWith_iff. split.
  - intros [r H]. exists (String.rev r).
    apply (f_equal String.rev) in H.
    now rewrite rev_involutive, rev_app, rev_involutive in H.
  - intros [a ->]. exists (String.rev a). apply rev_app.
Qed.

Lemma trimEnd_app (a b : string) :
  Str.trimEnd b <> "" -> Str.trimEnd (a +:+ b) = a +:+ Str.trimEnd b.
Proof.
  intros Hb. induction a as [|x a IH]; cbn; [reflexivity|].
  rewrite IH. destruct (a +:+ Str.trimEnd b) eqn:E; [|reflexivity].
  destruct a; cbn in E; [contradiction | discriminate].
Qed.

Lemma takeDigits_split (s : string) :
  exists r, s = Str.takeDigits s +:+ r /\ Str.takeDigits r = "".
Proof.
  induction s as [|c s [r [Hs Hr]]]; cbn.
  - now exists "".
  - destruct (Str.isDigit c) eqn:E.
    + exists r. cbn. now rewrite <- Hs.
    + exists (String c s). cbn. now rewrite E.
Qed.

Lemma takeDigits_digits (s : string) :
  Str.every Str.isDigit (Str.takeDigits s) = true.
Proof.
  induction s as [|c s IH]; cbn; [reflexivity|].
  destruct (Str.isDigit c) eqn:E; cbn; [now rewrite E|reflexivity].
Qed.

End StrFacts.

(** ** The regular expressions *)

Module RegExpFacts.

Import StrFacts.

Lemma takeDigits_app (ds r : string) :
  Str.every Str.isDigit ds = true -> Str.takeDigits r = "" ->
  Str.takeDigits (ds +:+ r) = ds.
Proof.
  intros Hd Hr. induction ds as [|c ds IH]; cbn in *; [exact Hr|].
  apply andb_true_iff in Hd as [Hc Hd]. now rewrite Hc, IH.
Qed.

Lemma matchHere_Some (marker s m g : string) :
  RegExp.matchHere marker s = Some (m, g) ->
  m = marker +:+ g /\ Str.truthy g = true /\
  exists r, s = marker +:+ g +:+ r /\
            Str.every Str.isDigit g = true /\ Str.takeDigits r = "".
Proof.
  unfold RegExp.matchHere.
  destruct (Str.stripPrefix marker s) as [rest|] eqn:Hp; [|discriminate].
  destruct (Str.takeDigits rest) as [|c ds] eqn:Hd; [discriminate|].
  intros [= <- <-]. repeat split.
  destruct (takeDigits_split rest) as [r [Hrest Hr]].
  exists r. rewrite <- Hd. repeat split; [|apply takeDigits_digits|exact Hr].
  rewrite <- Hrest. now apply stripPrefix_Some.
Qed.

Lemma matchHere_app (marker ds r : string) :
  ds <> "" -> Str.every Str.isDigit ds = true -> Str.takeDigits r = "" ->
  RegExp.matchHere marker (marker +:+ ds +:+ r) = Some (marker +:+ ds, ds).
Proof.
  intros Hne Hd Hr. unfold RegExp.matchHere.
  rewrite stripPrefix_app, takeDigits_app by assumption.
  destruct ds; [contradiction | reflexivity].
Qed.

Lemma exec_Some (marker s m g : string) :
  RegExp.exec marker s = Some (m, g) ->
  m = marker +:+ g /\ Str.truthy g = true /\ MatchesGroup marker s g.
Proof.
  induction s as [|c s IH]; cbn [RegExp.exec].
  - destruct (RegExp.matchHere marker "") as [[m' g']|] eqn:E;
      [|discriminate].
    intros [= -> ->]. apply matchHere_Some in E as (Hm & Hg & r & Hs & Hd & Hr).
    repeat split; try assumption. exists "", r.
    repeat split; try assumption. now destruct g.
  - destruct (RegExp.matchHere marker (String c s)) as [[m' g']|] eqn:E.
    + intros [= -> ->].
      apply matchHere_Some in E as (Hm & Hg & r & Hs & Hd & Hr).
      repeat split; try assumption. exists "", r.
      repeat split; try assumption. now destruct g.
    + intros H. destruct (IH H) as (Hm & Hg & before & after & Hs & Hrest).
      repeat split; try assumption.
      exists (String c before), after. split; [|exact Hrest].
      cbn. now rewrite <- Hs.
Qed.

Lemma exec_None (marker s : string) :
  RegExp.exec marker s = None -> forall digits, ~ MatchesGroup marker s digits.
Proof.
  intros H digits (before & after & Hs & Hne & Hd & Hr). subst s.
  induction before as [|c before IH]; cbn [RegExp.exec String.append] in H.
  - pose proof (matchHere_app marker digits after Hne Hd Hr) as E.
    destruct (marker +:+ digits +:+ after); cbn [RegExp.exec] in H;
      rewrite E in H; discriminate.
  - destruct (RegExp.matchHere marker _); [discriminate | auto].
Qed.

Lemma findVersion_exec (marker : string) (full : string -> string)
    (tag : string) :
  findVersion marker full tag
  = option_map (fun m => full (snd m)) (RegExp.exec marker tag).
Proof.
  unfold findVersion.
  destruct (RegExp.exec marker tag) as [[m g]|] eqn:E; [|reflexivity].
  apply exec_Some in E as (_ & -> & _). reflexivity.
Qed.

Lemma findVersion_spec (marker : string) (full : string -> string)
    (tag : string) :
  match findVersion marker full tag with
  | Some label =>
      exists digits, MatchesGroup marker tag digits /\ label = full digits
  | None => forall digits, ~ MatchesGroup marker tag digits
  end.
Proof.
  rewrite findVersion_exec.
  destruct (RegExp.exec marker tag) as [[m g]|] eqn:E; cbn.
  - apply exec_Some in E as (_ & _ & H). now exists g.
  - now apply exec_None.
Qed.

End RegExpFacts.

(** C7. [findChromeVersion] labels "node12.4.0-chrome76" with
    "Google Chrome 76" and [findFirefoxVersion] labels
    "node10.16.3-chrome80-ff73" with "Mozilla Firefox 73". In general, for
    every tag, each finder returns the vendor prefix followed by the digit
    group that its pattern captures: a label is returned exactly when the
    marker occurs in the tag followed by a digit, and the label is built from
    such a digit group; otherwise the finder returns [null]. The same holds
    for [findEdgeVersion]. *)
Theorem find_version_labels :
  findChromeVersion "node12.4.0-chrome76" = Some "Google Chrome 76" /\
  findFirefoxVersion "node10.16.3-chrome80-ff73" = Some "Mozilla Firefox 73" /\
  forall tag : string,
    (findChromeVersion tag
     = option_map (fun m => "Google Chrome " +:+ snd m)
         (RegExp.exec "chrome" tag) /\
     findFirefoxVersion tag
     = option_map (fun m => "Mozilla Firefox " +:+ snd m)
         (RegExp.exec "-ff" tag) /\
     findEdgeVersion tag
     = option_map (fun m => "Microsoft Edge " +:+ snd m)
         (RegExp.exec "-edge" tag)) /\
    match findChromeVersion tag with
    | Some label =>
        exists digits,
          MatchesGroup "chrome" tag digits /\
          label = "Google Chrome " +:+ digits
    | None => forall digits, ~ MatchesGroup "chrome" tag digits
    end /\
    match findFirefoxVersion tag with
    | Some label =>
        exists digits,
          MatchesGroup "-ff" tag digits /\
          label = "Mozilla Firefox " +:+ digits
    | None => forall digits, ~ MatchesGroup "-ff" tag digits
    end /\
    match findEdgeVersion tag with
    | Some label =>
        exists digits,
          MatchesGroup "-edge" tag digits /\
          label = "Microsoft Edge " +:+ digits
    | None => forall digits, ~ MatchesGroup "-edge" tag digits
    end.
Proof.
  split; [reflexivity|]. split; [reflexivity|]. intros tag.
  split; [|split; [|split]].
  - repeat split; apply RegExpFacts.findVersion_exec.
  - apply (RegExpFacts.findVersion_spec "chrome" fullChromeVersion).
  - apply (RegExpFacts.findVersion_spec "-ff" fullFirefoxVersion).
  - apply (RegExpFacts.findVersion_spec "-edge" fullEdgeVersion).
Qed.

(** ** The included images *)

Module SemverFacts.

Lemma parse_threshold : semver.parse "6.0.0" = Return v6_0_0.
Proof. reflexivity. Qed.


Lemma isSkipped_parse (tag : string) :
  Included.isSkipped tag
  = Exc.bind (semver.parse tag) (fun v =>
      Return (match semver.compare v v6_0_0 with Lt => true | _ => false end)).
Proof.
  unfold Included.isSkipped, semver.lt. rewrite parse_threshold.
  destruct (semver.parse tag); reflexivity.
Qed.

End SemverFacts.


(** ** The base images *)

Module BaseFacts.

Import StrFacts.

Lemma job_lines (img : ImageTag) :
  Base.job img
  = baseJobLines (tag img)
      +:+ (if String.eqb (tag img) "12.0.0-libgbm"
              || String.eqb (tag img) "manjaro-14.12.0"
           then Base.checkNodeVersionFalse else "").
Proof.
  unfold Base.job, baseJobLines.
  destruct (_ || _); [reflexivity | now rewrite app_nil_r].
Qed.

Lemma rev_snoc2 (s : string) (x y : ascii) :
  String.rev (s +:+ String x (String y ""))
  = String y (String x (String.rev s)).
Proof. now rewrite rev_app. Qed.

(** The lines that every job has end with a quote and a line feed, the
    line of [checkNodeVersion] ends with a letter and a line feed. *)
Lemma lines_not_checkNodeVersion (tag : string) :
  Str.endsWith (baseJobLines tag) Base.checkNodeVersionFalse = false.
Proof.
  assert (baseJobLines tag
          = (("      - build-base-image:" +:+ Str.nl) +:+
             ("          name: " +:+ Str.dq +:+ "base " +:+ tag
                +:+ Str.dq +:+ Str.nl) +:+
             ("          dockerTag: " +:+ Str.dq +:+ tag))
            +:+ String "034" (String "010" "")) as ->.
  { unfold baseJobLines. now rewrite !app_assoc. }
  unfold Str.endsWith. rewrite rev_snoc2. reflexivity.
Qed.

Lemma job_line_list (i : ImageTag) :
  Base.job i = Str.unlines (baseJobLineList i).
Proof.
  unfold Base.job, baseJobLineList, Base.checkNodeVersionFalse, Str.unlines,
    dockerTagLine.
  destruct (_ || _); cbn [List.map Str.join List.app];
    now rewrite ?app_assoc, ?app_nil_r.
Qed.

End BaseFacts.

(** C3, as stated, fails. "12.0.0-libgbm" and "14.5.0" are both tags that
    are not skipped; the job of the first mentions [checkNodeVersion], the
    job of the second does not. *)
Lemma libgbm_job_has_checkNodeVersion :
  (Base.isIncluded {| name := "base"; tag := "12.0.0-libgbm" |} = true /\
   Str.contains (Base.job {| name := "base"; tag := "12.0.0-libgbm" |})
     "checkNodeVersion" = true) /\
  (Base.isIncluded {| name := "base"; tag := "14.5.0" |} = true /\
   Str.contains (Base.job {| name := "base"; tag := "14.5.0" |})
     "checkNodeVersion" = false) /\
  ~ (forall img : ImageTag,
       Base.isIncluded img = true ->
       (Str.contains (Base.job img) "checkNodeVersion" = false <->
        tag img = "12.0.0-libgbm" \/ tag img = "manjaro-14.12.0")).
Proof.
  split; [split; reflexivity|]. split; [split; reflexivity|].
  intros H.
  destruct (H {| name := "base"; tag := "12.0.0-libgbm" |} eq_refl) as [_ H1].
  specialize (H1 (or_introl eq_refl)). vm_compute in H1. discriminate.
Qed.

(** C3, amended. The job block of a base tag ends with the line
    [checkNodeVersion: false] exactly when the tag is "12.0.0-libgbm" or
    "manjaro-14.12.0": the block of these two tags is the lines
    [build-base-image], [name], [dockerTag] and [checkNodeVersion: false],
    the block of every other base tag is the first three lines only. *)
Theorem base_job_checkNodeVersion (img : ImageTag) :
  Str.endsWith (Base.job img) Base.checkNodeVersionFalse
  = (String.eqb (tag img) "12.0.0-libgbm"
     || String.eqb (tag img) "manjaro-14.12.0") /\
  Base.job img
  = Str.unlines
      ([ "      - build-base-image:";
         "          name: " +:+ Str.dq +:+ "base " +:+ tag img +:+ Str.dq;
         "          dockerTag: " +:+ Str.dq +:+ tag img +:+ Str.dq ]
       ++ (if String.eqb (tag img) "12.0.0-libgbm"
              || String.eqb (tag img) "manjaro-14.12.0"
           then [ "          checkNodeVersion: false" ] else [])).
Proof.
  split.
  - rewrite BaseFacts.job_lines.
    destruct (_ || _) eqn:E.
    + apply StrFacts.endsWith_iff. now exists (baseJobLines (tag img)).
    + rewrite StrFacts.app_nil_r. apply BaseFacts.lines_not_checkNodeVersion.
  - apply BaseFacts.job_line_list.
Qed.



(** ** Callbacks that may throw *)

Module ExcFacts.

Section Map.

Context {A B : Type}.
Variable f : A -> Completion B.

Lemma map_Return (l : list A) (ys : list B) :
  Exc.map f l = Return ys -> Forall2 (fun x y => f x = Return y) l ys.
Proof.
  revert ys. induction l as [|x l IH]; intros ys; cbn.
  - intros [= <-]. constructor.
  - destruct (f x) as [y|e] eqn:Hx; cbn; [|discriminate].
    destruct (Exc.map f l) as [ys'|e]; cbn; [|discriminate].
    intros [= <-]. constructor; auto.
Qed.

(** The exception of the first element whose callback throws is the
    exception of the whole call. *)
Lemma map_Throw (l : list A) (e : Exn) :
  Exc.map f l = Throw e ->
  exists before x after,
    l = before ++ x :: after /\
    Forall (fun a => exists y, f a = Return y) before /\
    f x = Throw e.
Proof.
  induction l as [|x l IH]; cbn; [discriminate|].
  destruct (f x) as [y|e'] eqn:Hx; cbn.
  - destruct (Exc.map f l) as [ys|e'']; cbn; [discriminate|].
    intros [= ->]. destruct (IH eq_refl) as (before & x' & after & -> & Hb & Hx').
    exists (x :: before), x', after. repeat split; eauto.
  - intros [= ->]. exists [], x, l. repeat split; auto.
Qed.

End Map.

Section Filter.

Context {A : Type}.
Variable p : A -> Completion bool.

Lemma filter_Return (l kept : list A) :
  Exc.filter p l = Return kept ->
  Forall (fun x => exists b, p x = Return b) l /\
  kept = List.filter (Exc.answer p) l.
Proof.
  revert kept. induction l as [|x l IH]; intros kept; cbn.
  - intros [= <-]. split; constructor.
  - unfold Exc.answer at 1. destruct (p x) as [b|e] eqn:Hx; cbn; [|discriminate].
    destruct (Exc.filter p l) as [xs|e]; cbn; [|discriminate].
    intros [= <-]. destruct (IH xs eq_refl) as [Hall ->].
    split; [constructor; eauto|]. now destruct b.
Qed.

Lemma filter_Throw (l : list A) (x : A) (e0 : Exn) :
  In x l -> p x = Throw e0 -> exists e, Exc.filter p l = Throw e.
Proof.
  intros Hin Hx. induction l as [|y l IH]; [contradiction|]. cbn.
  destruct (p y) as [b|e] eqn:Hy; cbn; [|eauto].
  destruct Hin as [-> | Hin]; [congruence|].
  destruct (IH Hin) as [e ->]. cbn. eauto.
Qed.

End Filter.

End ExcFacts.

(** ** The browser images *)

Module BrowsersFacts.

Import StrFacts.

Lemma classifiable_false (tag : string) :
  classifiable tag = false <-> Unclassifiable tag.
Proof.
  unfold classifiable, Unclassifiable.
  destruct (RegExp.exec "chrome" tag), (RegExp.exec "-ff" tag),
    (RegExp.exec "-edge" tag); split; intros H;
    try discriminate; try reflexivity; try tauto;
    destruct H as (? & ? & ?); discriminate.
Qed.

Lemma foundBrowser (tag : string) :
  isTruthy (orElse (orElse (findChromeVersion tag) (findFirefoxVersion tag))
              (findEdgeVersion tag))
  = classifiable tag.
Proof.
  unfold findChromeVersion, findFirefoxVersion, findEdgeVersion, classifiable.
  rewrite !RegExpFacts.findVersion_exec.
  destruct (RegExp.exec "chrome" tag), (RegExp.exec "-ff" tag),
    (RegExp.exec "-edge" tag); reflexivity.
Qed.

(** A tag without a browser makes the job throw, naming the tag; every
    other tag is rendered. *)
Lemma job_cases (img : ImageTag) :
  if classifiable (tag img)
  then exists blk, Browsers.job img = Return blk
  else Browsers.job img = Throw (Browsers.cannotFind (tag img)).
Proof.
  unfold Browsers.job. rewrite foundBrowser.
  destruct (classifiable (tag img)); cbn; eauto.
Qed.

Lemma job_Throw (img : ImageTag) (e : Exn) :
  Browsers.job img = Throw e ->
  e = Browsers.cannotFind (tag img) /\ Unclassifiable (tag img).
Proof.
  pose proof (job_cases img) as H. intros He.
  destruct (classifiable (tag img)) eqn:E.
  - destruct H as [blk H]. congruence.
  - split; [congruence | now apply classifiable_false].
Qed.

Lemma cannotFind_inj (t1 t2 : string) :
  Browsers.cannotFind t1 = Browsers.cannotFind t2 -> t1 = t2.
Proof.
  unfold Browsers.cannotFind. intros [= H].
  now apply app_inv_tail in H.
Qed.

Lemma includes_In (l : list string) (x : string) :
  Str.includes l x = true <-> In x l.
Proof.
  unfold Str.includes. rewrite existsb_exists. split.
  - intros (y & Hy & E). apply String.eqb_eq in E. now subst.
  - intros H. exists x. split; [exact H | apply String.eqb_refl].
Qed.

(** Every tag of the skip list names a browser. *)
Lemma skipImages_classifiable :
  forallb classifiable Browsers.skipImages = true.
Proof. vm_compute. reflexivity. Qed.

Lemma unclassifiable_included (img : ImageTag) :
  Unclassifiable (tag img) ->
  Browsers.isIncluded Browsers.skipImages img = true.
Proof.
  intros H. unfold Browsers.isIncluded.
  destruct (Browsers.isSkipped _ _) eqn:E; [|reflexivity].
  apply includes_In in E.
  pose proof skipImages_classifiable as Hall.
  rewrite forallb_forall in Hall. apply Hall in E.
  apply classifiable_false in H. congruence.
Qed.

Lemma form_yml (skip : list string) (images : list ImageTag) :
  Browsers.form skip images
  = Exc.bind (Browsers.yml skip images)
      (fun yml => Return (Browsers.workflowName +:+ Str.join yml)).
Proof. reflexivity. Qed.

Lemma form_Throw (skip : list string) (images : list ImageTag) (e : Exn) :
  Browsers.form skip images = Throw e <-> Browsers.yml skip images = Throw e.
Proof.
  rewrite form_yml. destruct (Browsers.yml skip images); cbn;
    split; congruence.
Qed.

Lemma yml_cons_skipped (skip : list string) (x : ImageTag)
    (l : list ImageTag) :
  Browsers.isIncluded skip x = false ->
  Browsers.yml skip (x :: l) = Browsers.yml skip l.
Proof. intros H. unfold Browsers.yml. cbn. now rewrite H. Qed.

Lemma yml_cons_included (skip : list string) (x : ImageTag)
    (l : list ImageTag) :
  Browsers.isIncluded skip x = true ->
  Browsers.yml skip (x :: l)
  = Exc.bind (Browsers.job x) (fun y =>
      Exc.bind (Browsers.yml skip l) (fun ys => Return (y :: ys))).
Proof. intros H. unfold Browsers.yml. cbn. now rewrite H. Qed.

Lemma skipped_not_included (skip : list string) (img : ImageTag) :
  In (tag img) skip -> Browsers.isIncluded skip img = false.
Proof.
  intros H. unfold Browsers.isIncluded, Browsers.isSkipped.
  apply includes_In in H. now rewrite H.
Qed.

(** Selecting the surviving images forgets the images of a skipped tag. *)
Lemma filter_without_skipped (skip : list string) (t : string)
    (images : list ImageTag) :
  In t skip ->
  List.filter (Browsers.isIncluded skip)
    (List.filter (fun i => negb (String.eqb (tag i) t)) images)
  = List.filter (Browsers.isIncluded skip) images.
Proof.
  intros Ht. induction images as [|x l IH]; [reflexivity|]. cbn.
  destruct (String.eqb (tag x) t) eqn:E; cbn.
  - apply String.eqb_eq in E. subst t.
    now rewrite (skipped_not_included skip x Ht).
  - now rewrite IH.
Qed.

End BrowsersFacts.

(** C4. When some tag of the browser images has none of the patterns
    [chrome<digits>], [-ff<digits>], [-edge<digits>], forming the browser
    workflow throws instead of returning a text: the error names the first
    tag of the list in which no pattern matches. *)
Theorem unclassifiable_browser_tag_aborts
    (browserImages : list ImageTag) (img : ImageTag) :
  In img browserImages ->
  Unclassifiable (tag img) ->
  exists before offending after,
    browserImages = before ++ offending :: after /\
    Forall (fun i => ~ Unclassifiable (tag i)) before /\
    Unclassifiable (tag offending) /\
    formBrowserWorkflow browserImages
    = Throw (Error ("Cannot find any browsers from image tag " +:+ Str.dq
                      +:+ tag offending +:+ Str.dq)).
Proof.
  intros Hin Himg. unfold formBrowserWorkflow.
  induction browserImages as [|x l IH]; [contradiction|].
  pose proof (BrowsersFacts.job_cases x) as Hjob.
  destruct (classifiable (tag x)) eqn:E.
  - assert (Hl : In img l).
    { destruct Hin as [-> | H]; [|exact H].
      apply BrowsersFacts.classifiable_false in Himg. congruence. }
    destruct (IH Hl) as (before & offending & after & -> & Hb & Hoff & Hthrow).
    exists (x :: before), offending, after.
    split; [reflexivity|]. split.
    { constructor; [|exact Hb].
      intros H. apply BrowsersFacts.classifiable_false in H. congruence. }
    split; [exact Hoff|].
    apply BrowsersFacts.form_Throw. apply BrowsersFacts.form_Throw in Hthrow.
    destruct (Browsers.isIncluded Browsers.skipImages x) eqn:Hx.
    + rewrite BrowsersFacts.yml_cons_included by exact Hx.
      destruct Hjob as [blk ->]. cbn. now rewrite Hthrow.
    + now rewrite BrowsersFacts.yml_cons_skipped.
  - apply BrowsersFacts.classifiable_false in E.
    exists [], x, l. repeat split; [constructor | apply E..|].
    apply BrowsersFacts.form_Throw.
    rewrite BrowsersFacts.yml_cons_included
      by now apply BrowsersFacts.unclassifiable_included.
    now rewrite Hjob.
Qed.

Lemma unclassifiable_browser_tag_aborts_witness :
  exists before offending after,
    [ {| name := "browsers"; tag := "node14.0.0-chrome84" |};
      {| name := "browsers"; tag := "node14.0.0" |};
      {| name := "browsers"; tag := "node14.0.0-edge88" |} ]
    = before ++ offending :: after /\
    Forall (fun i => ~ Unclassifiable (tag i)) before /\
    Unclassifiable (tag offending) /\
    formBrowserWorkflow
      [ {| name := "browsers"; tag := "node14.0.0-chrome84" |};
        {| name := "browsers"; tag := "node14.0.0" |};
        {| name := "browsers"; tag := "node14.0.0-edge88" |} ]
    = Throw (Error ("Cannot find any browsers from image tag " +:+ Str.dq
                      +:+ tag offending +:+ Str.dq)).
Proof.
  apply (unclassifiable_browser_tag_aborts
           [ {| name := "browsers"; tag := "node14.0.0-chrome84" |};
             {| name := "browsers"; tag := "node14.0.0" |};
             {| name := "browsers"; tag := "node14.0.0-edge88" |} ]
           {| name := "browsers"; tag := "node14.0.0" |}).
  - simpl. right. left. reflexivity.
  - repeat split; reflexivity.
Defined.

(** C10. The skip list is applied before classification. For every skip
    list (that of [formBrowserWorkflow] is [Browsers.skipImages]) and every
    tag on it, whether or not the tag names a browser: the images of that
    tag do not change the outcome, the error that the workflow may throw does
    not name the tag, and when the workflow returns, none of its job blocks
    is the job of an image of that tag. *)
Theorem skipped_browser_tag_not_classified
    (skip : list string) (browserImages : list ImageTag) (t : string) :
  In t skip ->
  formBrowserWorkflow = Browsers.form Browsers.skipImages /\
  Browsers.form skip browserImages
  = Browsers.form skip
      (List.filter (fun i => negb (String.eqb (tag i) t)) browserImages) /\
  Browsers.form skip browserImages <> Throw (Browsers.cannotFind t) /\
  forall yml,
    Browsers.yml skip browserImages = Return yml ->
    exists kept,
      Forall2 (fun i blk => Browsers.job i = Return blk) kept yml /\
      ~ In t (List.map tag kept).
Proof.
  intros Ht. split; [reflexivity|]. split; [|split].
  - rewrite !BrowsersFacts.form_yml. unfold Browsers.yml.
    now rewrite BrowsersFacts.filter_without_skipped.
  - intros H. apply BrowsersFacts.form_Throw in H.
    apply ExcFacts.map_Throw in H as (before & x & after & Hl & _ & Hx).
    apply BrowsersFacts.job_Throw in Hx as [Hx _].
    apply BrowsersFacts.cannotFind_inj in Hx. subst t.
    assert (Hin : In x (List.filter (Browsers.isIncluded skip) browserImages)).
    { rewrite Hl. apply in_or_app. right. now left. }
    apply List.filter_In in Hin as [_ Hin].
    rewrite (BrowsersFacts.skipped_not_included skip x Ht) in Hin.
    discriminate.
  - intros yml H. apply ExcFacts.map_Return in H.
    exists (List.filter (Browsers.isIncluded skip) browserImages).
    split; [exact H|]. intros Hin.
    apply List.in_map_iff in Hin as (x & <- & Hin).
    apply List.filter_In in Hin as [_ Hin].
    rewrite (BrowsersFacts.skipped_not_included skip x Ht) in Hin.
    discriminate.
Qed.

Lemma skipped_browser_tag_not_classified_witness :
  formBrowserWorkflow = Browsers.form Browsers.skipImages /\
  Browsers.form ("nightly" :: Browsers.skipImages)
    [ {| name := "browsers"; tag := "nightly" |};
      {| name := "browsers"; tag := "node14.0.0-chrome84" |} ]
  = Browsers.form ("nightly" :: Browsers.skipImages)
      (List.filter (fun i => negb (String.eqb (tag i) "nightly"))
         [ {| name := "browsers"; tag := "nightly" |};
           {| name := "browsers"; tag := "node14.0.0-chrome84" |} ]) /\
  Browsers.form ("nightly" :: Browsers.skipImages)
    [ {| name := "browsers"; tag := "nightly" |};
      {| name := "browsers"; tag := "node14.0.0-chrome84" |} ]
  <> Throw (Browsers.cannotFind "nightly") /\
  forall yml,
    Browsers.yml ("nightly" :: Browsers.skipImages)
      [ {| name := "browsers"; tag := "nightly" |};
        {| name := "browsers"; tag := "node14.0.0-chrome84" |} ]
    = Return yml ->
    exists kept,
      Forall2 (fun i blk => Browsers.job i = Return blk) kept yml /\
      ~ In "nightly" (List.map tag kept).
Proof.
  apply (skipped_browser_tag_not_classified
           ("nightly" :: Browsers.skipImages)
           [ {| name := "browsers"; tag := "nightly" |};
             {| name := "browsers"; tag := "node14.0.0-chrome84" |} ]
           "nightly").
  simpl. left. reflexivity.
Defined.

(** ** The static preamble *)

Module PreambleFacts.

Import StrFacts.

Lemma unlines_cons (x : string) (l : list string) :
  Str.unlines (x :: l) = x +:+ Str.nl +:+ Str.unlines l.
Proof. unfold Str.unlines. cbn [List.map Str.join]. apply app_assoc. Qed.

Lemma trimEnd_body :
  Str.trimEnd (Str.nl +:+ Str.unlines Preamble.body)
  = Str.nl +:+ String.concat Str.nl Preamble.body.
Proof. vm_compute. reflexivity. Qed.

(** Trimming the preamble removes its first and its last line feed, and
    nothing else, whatever the name of the script. *)
Lemma trim_preamble (script : string) :
  Str.trim (preamble script)
  = String.concat Str.nl (Preamble.lines script).
Proof.
  unfold preamble, Preamble.lines, Str.trim. rewrite unlines_cons.
  change (Str.trimStart (Str.nl +:+ Preamble.header script +:+ Str.nl
                           +:+ Str.unlines Preamble.body))
    with (Preamble.header script +:+ Str.nl
            +:+ Str.unlines Preamble.body).
  rewrite trimEnd_app, trimEnd_body; [reflexivity|].
  rewrite trimEnd_body. discriminate.
Qed.

End PreambleFacts.

(** ** Writing the file *)

Module IOFacts.

Lemma writeConfigFile_cases (rt : Runtime)
    (b br inc : list ImageTag) (w : World) :
  writeConfigFile rt b br inc w
  = match formBrowserWorkflow br with
    | Throw e => (Throw e, w)
    | Return browsers =>
        match formIncludedWorkflow inc with
        | Throw e => (Throw e, w)
        | Return included =>
            (Return tt,
             written (Str.trim (preamble (script rt))
                        +:+ EOL (platform rt) +:+ formBaseWorkflow b
                        +:+ EOL (platform rt) +:+ browsers
                        +:+ EOL (platform rt) +:+ included) w)
        end
    end.
Proof.
  unfold writeConfigFile, IO.bind, IO.lift.
  destruct (formBrowserWorkflow br); [|reflexivity].
  destruct (formIncludedWorkflow inc); reflexivity.
Qed.

Lemma main_writeConfigFile (rt : Runtime)
    (b br inc : list ImageTag) (w : World) :
  main rt b br inc w = writeConfigFile rt b br inc (announced b br inc w).
Proof.
  unfold main, IO.bind, IO.log, announced. cbn.
  rewrite <- !List.app_assoc. reflexivity.
Qed.

Lemma included_Throw (inc : list ImageTag) (img : ImageTag) (e0 : Exn) :
  In img inc -> semver.parse (tag img) = Throw e0 ->
  exists e, formIncludedWorkflow inc = Throw e.
Proof.
  intros Hin Hp.
  assert (Himg : Included.isIncluded img = Throw e0).
  { unfold Included.isIncluded. rewrite SemverFacts.isSkipped_parse, Hp.
    reflexivity. }
  destruct (ExcFacts.filter_Throw Included.isIncluded inc img e0 Hin Himg)
    as [e He].
  exists e. unfold formIncludedWorkflow, Included.yml. now rewrite He.
Qed.

End IOFacts.

(** C5, as stated, fails. With "latest" among the included images the run
    throws, and where the runtime only warns about the unhandled rejection
    the process exits with status 0: an included tag that is no version
    does not make the exit status non-zero on every runtime. *)
Lemma invalid_included_tag_exit_zero :
  semver.parse "latest" = Throw (TypeError "Invalid Version: latest") /\
  fst (main sampleRuntime sampleBase sampleBrowsers
         [ {| name := "included"; tag := "6.0.0" |};
           {| name := "included"; tag := "latest" |} ] sampleWorld)
  = Throw (TypeError "Invalid Version: latest") /\
  Node.exitCode Node.warn
    (fst (main sampleRuntime sampleBase sampleBrowsers
            [ {| name := "included"; tag := "6.0.0" |};
              {| name := "included"; tag := "latest" |} ] sampleWorld))
  = 0 /\
  ~ (forall (mode : Node.UnhandledRejections) (rt : Runtime)
            (baseImages browserImages includedImages : list ImageTag)
            (w : World) (img : ImageTag) (e0 : Exn),
       In img includedImages ->
       semver.parse (tag img) = Throw e0 ->
       Node.exitCode mode
         (fst (main rt baseImages browserImages includedImages w)) <> 0 /\
       files (snd (main rt baseImages browserImages includedImages w))
       = files w).
Proof.
  split; [reflexivity|]. split; [reflexivity|]. split; [reflexivity|].
  intros H.
  destruct (H Node.warn sampleRuntime sampleBase sampleBrowsers
              [ {| name := "included"; tag := "6.0.0" |};
                {| name := "included"; tag := "latest" |} ] sampleWorld
              {| name := "included"; tag := "latest" |}
              (TypeError "Invalid Version: latest")) as [Hexit _].
  - simpl. right. left. reflexivity.
  - reflexivity.
  - apply Hexit. reflexivity.
Qed.

(** C5, amended. When a tag of the included images is not a semantic
    version, the run ends with an exception that the script does not catch,
    and [circle.yml] is not written: the files are what they were before
    the run, so that a file of an earlier run stays as it was. The script
    sets no exit status: the process exits with a non-zero status exactly
    on a runtime that turns the unhandled rejection into a failure, the
    modes [throw], [strict] and [warn-with-error-code]. *)
Theorem invalid_included_tag_aborts (rt : Runtime)
    (baseImages browserImages includedImages : list ImageTag) (w : World)
    (img : ImageTag) (e0 : Exn) (mode : Node.UnhandledRejections) :
  In img includedImages ->
  semver.parse (tag img) = Throw e0 ->
  exists e : Exn,
    writeConfigFile rt baseImages browserImages includedImages w
    = (Throw e, w) /\
    fst (main rt baseImages browserImages includedImages w) = Throw e /\
    files (snd (main rt baseImages browserImages includedImages w))
    = files w /\
    (Node.exitCode mode
       (fst (main rt baseImages browserImages includedImages w)) <> 0 <->
     mode = Node.throw \/ mode = Node.strict \/
     mode = Node.warn_with_error_code).
Proof.
  intros Hin Hp.
  destruct (IOFacts.included_Throw includedImages img e0 Hin Hp) as [e He].
  assert (He' : exists e', forall w0,
             writeConfigFile rt baseImages browserImages includedImages w0
             = (Throw e', w0)).
  { destruct (formBrowserWorkflow browserImages) as [browsers|e'] eqn:Hb.
    - exists e. intros w0. now rewrite IOFacts.writeConfigFile_cases, Hb, He.
    - exists e'. intros w0. now rewrite IOFacts.writeConfigFile_cases, Hb. }
  destruct He' as [e' He'].
  exists e'. rewrite IOFacts.main_writeConfigFile, !He'. cbn.
  repeat split; try (destruct mode; intros H; auto; contradiction).
  intros [-> | [-> | ->]]; discriminate.
Qed.

Lemma invalid_included_tag_aborts_witness :
  exists e : Exn,
    writeConfigFile sampleRuntime sampleBase sampleBrowsers
      [ {| name := "included"; tag := "6.0.0" |};
        {| name := "included"; tag := "latest" |} ] sampleWorld
    = (Throw e, sampleWorld) /\
    fst (main sampleRuntime sampleBase sampleBrowsers
           [ {| name := "included"; tag := "6.0.0" |};
             {| name := "included"; tag := "latest" |} ] sampleWorld)
    = Throw e /\
    files (snd (main sampleRuntime sampleBase sampleBrowsers
                  [ {| name := "included"; tag := "6.0.0" |};
                    {| name := "included"; tag := "latest" |} ] sampleWorld))
    = files sampleWorld /\
    (Node.exitCode Node.throw
       (fst (main sampleRuntime sampleBase sampleBrowsers
               [ {| name := "included"; tag := "6.0.0" |};
                 {| name := "included"; tag := "latest" |} ] sampleWorld))
     <> 0 <->
     Node.throw = Node.throw \/ Node.throw = Node.strict \/
     Node.throw = Node.warn_with_error_code).
Proof.
  apply (invalid_included_tag_aborts sampleRuntime sampleBase sampleBrowsers
           [ {| name := "included"; tag := "6.0.0" |};
             {| name := "included"; tag := "latest" |} ] sampleWorld
           {| name := "included"; tag := "latest" |}
           (TypeError "Invalid Version: latest") Node.throw).
  - simpl. right. left. reflexivity.
  - reflexivity.
Defined.

(** C8. When the browser workflow and the included workflow are formed,
    the text written to [circle.yml] is the trimmed preamble, the base
    workflow, the browser workflow and the included workflow, in this order
    and with [os.EOL] between them; the file then holds this text and nothing
    else. The trimmed preamble is the lines of the preamble joined by line
    feeds. *)
Theorem document_is_preamble_and_workflows (rt : Runtime)
    (baseImages browserImages includedImages : list ImageTag) (w : World)
    (browsers included : string) :
  formBrowserWorkflow browserImages = Return browsers ->
  formIncludedWorkflow includedImages = Return included ->
  writeConfigFile rt baseImages browserImages includedImages w
  = (Return tt,
     {| files :=
          <["circle.yml" :=
              Str.trim (preamble (script rt)) +:+ EOL (platform rt)
                +:+ formBaseWorkflow baseImages +:+ EOL (platform rt)
                +:+ browsers +:+ EOL (platform rt) +:+ included]> (files w);
        console := console w ++ [Text "generated circle.yml"] |}) /\
  files (snd (writeConfigFile rt baseImages browserImages includedImages w))
    !! "circle.yml"
  = Some (Str.trim (preamble (script rt)) +:+ EOL (platform rt)
            +:+ formBaseWorkflow baseImages +:+ EOL (platform rt)
            +:+ browsers +:+ EOL (platform rt) +:+ included) /\
  Str.trim (preamble (script rt))
  = String.concat Str.nl (Preamble.lines (script rt)).
Proof.
  intros Hb Hi. rewrite IOFacts.writeConfigFile_cases, Hb, Hi.
  split; [reflexivity|]. split; [|apply PreambleFacts.trim_preamble].
  cbn. apply lookup_insert_eq.
Qed.

Lemma document_is_preamble_and_workflows_witness :
  writeConfigFile sampleRuntime sampleBase sampleBrowsers sampleIncluded
    sampleWorld
  = (Return tt,
     {| files :=
          <["circle.yml" :=
              Str.trim (preamble (script sampleRuntime))
                +:+ EOL (platform sampleRuntime)
                +:+ formBaseWorkflow sampleBase
                +:+ EOL (platform sampleRuntime)
                +:+ (Browsers.workflowName
                       +:+ Str.join
                             [ "      - build-browser-image:" +:+ Str.nl +:+
                               "          name: " +:+ Str.dq
                                 +:+ "browsers node14.0.0-chrome84-ff78"
                                 +:+ Str.dq +:+ Str.nl +:+
                               "          dockerTag: " +:+ Str.dq
                                 +:+ "node14.0.0-chrome84-ff78"
                                 +:+ Str.dq +:+ Str.nl +:+
                               "          chromeVersion: " +:+ Str.dq
                                 +:+ "Google Chrome 84"
                                 +:+ Str.dq +:+ Str.nl +:+
                               "          firefoxVersion: " +:+ Str.dq
                                 +:+ "Mozilla Firefox 78"
                                 +:+ Str.dq +:+ Str.nl ])
                +:+ EOL (platform sampleRuntime)
                +:+ (Included.workflowName
                       +:+ Str.join
                             [ Included.job
                                 {| name := "included"; tag := "6.0.0" |};
                               Included.job
                                 {| name := "included"; tag := "7.0.0" |} ])]>
            (files sampleWorld);
        console := console sampleWorld ++ [Text "generated circle.yml"] |}) /\
  files (snd (writeConfigFile sampleRuntime sampleBase sampleBrowsers
                sampleIncluded sampleWorld)) !! "circle.yml"
  = Some (Str.trim (preamble (script sampleRuntime))
            +:+ EOL (platform sampleRuntime)
            +:+ formBaseWorkflow sampleBase
            +:+ EOL (platform sampleRuntime)
            +:+ (Browsers.workflowName
                   +:+ Str.join
                         [ "      - build-browser-image:" +:+ Str.nl +:+
                           "          name: " +:+ Str.dq
                             +:+ "browsers node14.0.0-chrome84-ff78"
                             +:+ Str.dq +:+ Str.nl +:+
                           "          dockerTag: " +:+ Str.dq
                             +:+ "node14.0.0-chrome84-ff78"
                             +:+ Str.dq +:+ Str.nl +:+
                           "          chromeVersion: " +:+ Str.dq
                             +:+ "Google Chrome 84"
                             +:+ Str.dq +:+ Str.nl +:+
                           "          firefoxVersion: " +:+ Str.dq
                             +:+ "Mozilla Firefox 78"
                             +:+ Str.dq +:+ Str.nl ])
            +:+ EOL (platform sampleRuntime)
            +:+ (Included.workflowName
                   +:+ Str.join
                         [ Included.job
                             {| name := "included"; tag := "6.0.0" |};
                           Included.job
                             {| name := "included"; tag := "7.0.0" |} ])) /\
  Str.trim (preamble (script sampleRuntime))
  = String.concat Str.nl (Preamble.lines (script sampleRuntime)).
Proof.
  apply (document_is_preamble_and_workflows sampleRuntime sampleBase
           sampleBrowsers sampleIncluded sampleWorld); reflexivity.
Defined.

(** C9. Generation is deterministic. Two runs on the same lists of images
    end the same way, whatever the files and the console were before; when
    they return, [circle.yml] holds the same text after both; when they
    throw, the files are left as they were. Running again on the result of a
    run leaves the files unchanged. *)
Theorem generation_is_deterministic (rt : Runtime)
    (base browsers included : list ImageTag) (w1 w2 : World) :
  fst (main rt base browsers included w1)
  = fst (main rt base browsers included w2) /\
  match fst (main rt base browsers included w1) with
  | Return _ =>
      files (snd (main rt base browsers included w1)) !! "circle.yml"
      = files (snd (main rt base browsers included w2)) !! "circle.yml" /\
      is_Some (files (snd (main rt base browsers included w1))
                 !! "circle.yml")
  | Throw _ =>
      files (snd (main rt base browsers included w1)) = files w1
  end /\
  files (snd (main rt base browsers included
                (snd (main rt base browsers included w1))))
  = files (snd (main rt base browsers included w1)).
Proof.
  rewrite !IOFacts.main_writeConfigFile, !IOFacts.writeConfigFile_cases.
  destruct (formBrowserWorkflow browsers) as [bs|e]; cbn;
    [|repeat split].
  destruct (formIncludedWorkflow included) as [inc|e]; cbn;
    [|repeat split].
  split; [reflexivity|]. split.
  - rewrite !lookup_insert_eq. split; [reflexivity | eauto].
  - apply insert_insert_eq.
Qed.

(** ** One job per tag *)

Module JobsFacts.

Lemma Forall2_map {A B} (f : A -> B) (l : list A) :
  Forall2 (fun x y => f x = y) l (List.map f l).
Proof. induction l; cbn; constructor; auto. Qed.

(** Filtering by a skip predicate on tags keeps the tags that are not
    skipped as often as they were there, and no skipped tag. *)
Lemma count_kept (skipped : string -> bool) (images : list ImageTag)
    (t : string) :
  count_occ string_dec
    (List.map tag (List.filter (fun i => negb (skipped (tag i))) images)) t
  = if skipped t then 0 else count_occ string_dec (List.map tag images) t.
Proof.
  induction images as [|x l IH]; cbn.
  - now destruct (skipped t).
  - destruct (skipped (tag x)) eqn:Hx; cbn;
      destruct (string_dec (tag x) t) as [E | Hne];
      rewrite IH; try reflexivity; rewrite <- E, Hx; reflexivity.
Qed.

Lemma one_job_per_tag (renders : ImageTag -> string -> Prop)
    (skipped : string -> bool) (images : list ImageTag)
    (yml : list string) :
  Forall2 renders
    (List.filter (fun i => negb (skipped (tag i))) images) yml ->
  OneJobPerTag renders skipped images yml.
Proof.
  intros H. exists (List.filter (fun i => negb (skipped (tag i))) images).
  split; [exact H | apply count_kept].
Qed.

Lemma base_jobs (images : list ImageTag) :
  OneJobPerTag (fun i blk => Base.job i = blk) Base.isSkipped images
    (Base.yml images).
Proof. apply one_job_per_tag. apply Forall2_map. Qed.

Lemma browser_jobs (images : list ImageTag) (yml : list string) :
  Browsers.yml Browsers.skipImages images = Return yml ->
  OneJobPerTag (fun i blk => Browsers.job i = Return blk)
    (Browsers.isSkipped Browsers.skipImages) images yml.
Proof. intros H. apply one_job_per_tag. now apply ExcFacts.map_Return. Qed.

Lemma included_answer (img : ImageTag) (b : bool) :
  Included.isIncluded img = Return b ->
  Exc.answer Included.isIncluded img = negb (includedSkips (tag img)).
Proof.
  unfold includedSkips, Exc.answer, Included.isIncluded.
  destruct (Included.isSkipped (tag img)); cbn; [reflexivity|discriminate].
Qed.

Lemma included_jobs (images : list ImageTag) (yml : list string) :
  Included.yml images = Return yml ->
  OneJobPerTag (fun i blk => Included.job i = blk) includedSkips images yml.
Proof.
  unfold Included.yml.
  destruct (Exc.filter Included.isIncluded images) as [kept|e] eqn:E;
    cbn; [|discriminate].
  intros [= <-]. apply ExcFacts.filter_Return in E as [Hall ->].
  apply one_job_per_tag.
  rewrite (List.filter_ext_in (Exc.answer Included.isIncluded)
             (fun i => negb (includedSkips (tag i)))).
  - apply Forall2_map.
  - intros x Hx. rewrite List.Forall_forall in Hall.
    destruct (Hall x Hx) as [b Hb]. now apply (included_answer x b).
Qed.

End JobsFacts.

(** ** The lines of a workflow *)

Module LinesFacts.

Import StrFacts.

Lemma every_app (p : ascii -> bool) (a b : string) :
  Str.every p (a +:+ b) = Str.every p a && Str.every p b.
Proof.
  induction a as [|x a IH]; cbn; [reflexivity|].
  now rewrite IH, andb_assoc.
Qed.

Lemma every_impl (p q : ascii -> bool) (s : string) :
  (forall c, p c = true -> q c = true) ->
  Str.every p s = true -> Str.every q s = true.
Proof.
  intros Hpq. induction s as [|x s IH]; cbn; [reflexivity|].
  intros H. apply andb_true_iff in H as [Hx Hs].
  now rewrite (Hpq x Hx), IH.
Qed.

Lemma digits_lineFeedFree (s : string) :
  Str.every Str.isDigit s = true -> lineFeedFree s = true.
Proof.
  apply every_impl. intros c. unfold Str.isDigit.
  destruct c as [[] [] [] [] [] [] [] []]; cbn; congruence.
Qed.

Lemma lines_cons (a rest : string) :
  lineFeedFree a = true ->
  linesOf (a +:+ Str.nl +:+ rest) = a :: linesOf rest.
Proof.
  unfold linesOf, lineFeedFree.
  induction a as [|x a IH]; cbn; [reflexivity|].
  intros H. apply andb_true_iff in H as [Hx Ha].
  apply negb_true_iff in Hx. rewrite Hx. cbn in IH. now rewrite IH.
Qed.

Lemma lines_unlines (ls : list string) (rest : string) :
  Forall (fun l => lineFeedFree l = true) ls ->
  linesOf (Str.unlines ls +:+ rest) = ls ++ linesOf rest.
Proof.
  unfold Str.unlines. induction 1 as [|l ls Hl _ IH]; cbn [List.map Str.join].
  - reflexivity.
  - rewrite !app_assoc, lines_cons by exact Hl. now rewrite IH.
Qed.

Lemma lines_blocks (blocks : list (list string)) (rest : string) :
  Forall (Forall (fun l => lineFeedFree l = true)) blocks ->
  linesOf (Str.join (List.map Str.unlines blocks) +:+ rest)
  = concat blocks ++ linesOf rest.
Proof.
  induction 1 as [|b blocks Hb _ IH]; cbn [List.map Str.join concat].
  - reflexivity.
  - rewrite app_assoc, lines_unlines by exact Hb.
    now rewrite IH, List.app_assoc.
Qed.

(** The lines of a workflow: the two lines of its header, the lines of its
    jobs, and the empty line after the last line feed. *)
Lemma lines_workflow (h1 h2 : string) (blocks : list (list string)) :
  lineFeedFree h1 = true -> lineFeedFree h2 = true ->
  Forall (Forall (fun l => lineFeedFree l = true)) blocks ->
  linesOf (((h1 +:+ Str.nl) +:+ (h2 +:+ Str.nl))
             +:+ Str.join (List.map Str.unlines blocks))
  = h1 :: h2 :: concat blocks ++ [""].
Proof.
  intros H1 H2 Hb.
  rewrite <- (app_nil_r (Str.join _)), !app_assoc.
  now rewrite !lines_cons, lines_blocks.
Qed.

Lemma dockerTagLine_inj (t1 t2 : string) :
  dockerTagLine t1 = dockerTagLine t2 -> t1 = t2.
Proof.
  unfold dockerTagLine. intros H. apply app_inv_head in H.
  apply app_inv_head in H. now apply app_inv_tail in H.
Qed.

Lemma lineFeedFree_dockerTagLine (t : string) :
  lineFeedFree t = true -> lineFeedFree (dockerTagLine t) = true.
Proof.
  intros H. unfold dockerTagLine, lineFeedFree.
  rewrite !every_app. fold (lineFeedFree t). now rewrite H.
Qed.

(** Counting a [dockerTag] line in the lines of the jobs counts the jobs of
    the tag. *)
Lemma count_dockerTagLine (lineList : ImageTag -> list string)
    (kept : list ImageTag) (t : string) :
  (forall i,
     count_occ string_dec (lineList i) (dockerTagLine t)
     = if string_dec (tag i) t then 1 else 0) ->
  count_occ string_dec (concat (List.map lineList kept)) (dockerTagLine t)
  = count_occ string_dec (List.map tag kept) t.
Proof.
  intros Hone. induction kept as [|i kept IH]; [reflexivity|].
  cbn [List.map concat count_occ].
  rewrite count_occ_app, Hone, IH. now destruct (string_dec (tag i) t).
Qed.

Lemma count_own_dockerTagLine (i : ImageTag) (t : string) :
  count_occ string_dec [dockerTagLine (tag i)] (dockerTagLine t)
  = if string_dec (tag i) t then 1 else 0.
Proof.
  destruct (string_dec (tag i) t) as [E | Hne].
  - rewrite E. apply count_occ_cons_eq. reflexivity.
  - apply count_occ_cons_neq. intros H. now apply dockerTagLine_inj in H.
Qed.

(** A workflow whose jobs are made of the line lists of the images that are
    not skipped has one [dockerTag] line per such image. *)
Lemma one_line_per_tag (h1 h2 : string) (lineList : ImageTag -> list string)
    (skipped : string -> bool) (images : list ImageTag) :
  lineFeedFree h1 = true -> lineFeedFree h2 = true ->
  (forall t, h1 <> dockerTagLine t) -> (forall t, h2 <> dockerTagLine t) ->
  (forall i, lineFeedFree (tag i) = true ->
             Forall (fun l => lineFeedFree l = true) (lineList i)) ->
  (forall i t,
     count_occ string_dec (lineList i) (dockerTagLine t)
     = if string_dec (tag i) t then 1 else 0) ->
  Forall (fun i => lineFeedFree (tag i) = true) images ->
  OneDockerTagLinePerTag skipped images
    (((h1 +:+ Str.nl) +:+ (h2 +:+ Str.nl))
       +:+ Str.join
             (List.map (fun i => Str.unlines (lineList i))
                (List.filter (fun i => negb (skipped (tag i))) images))).
Proof.
  intros H1 H2 Hn1 Hn2 Hfree Hone Himages t.
  rewrite <- (List.map_map lineList Str.unlines), lines_workflow;
    try assumption.
  - rewrite count_occ_cons_neq by apply Hn1.
    rewrite count_occ_cons_neq by apply Hn2.
    rewrite count_occ_app, count_dockerTagLine by (intros i; apply Hone).
    rewrite JobsFacts.count_kept.
    rewrite count_occ_cons_neq; [now rewrite Nat.add_0_r|].
    unfold dockerTagLine. cbn. discriminate.
  - apply List.Forall_map. apply List.Forall_forall. intros i Hi.
    apply Hfree. rewrite List.Forall_forall in Himages. apply Himages.
    apply List.filter_In in Hi. apply Hi.
Qed.

End LinesFacts.

Module WorkflowLines.

Import StrFacts LinesFacts.

Ltac line_feed_free :=
  unfold lineFeedFree; rewrite ?every_app;
  repeat match goal with
         | H : lineFeedFree ?t = true |- _ =>
             change (Str.every (fun c => negb (Ascii.eqb c "010")) t)
               with (lineFeedFree t);
             rewrite H
         end;
  reflexivity.

Ltac other_line :=
  let H := fresh in
  intros H; unfold dockerTagLine in H; cbn in H; discriminate H.

(** *** Base *)

Lemma base_lineFeedFree (i : ImageTag) :
  lineFeedFree (tag i) = true ->
  Forall (fun l => lineFeedFree l = true) (baseJobLineList i).
Proof.
  intros H. unfold baseJobLineList.
  destruct (_ || _); repeat constructor;
    try apply lineFeedFree_dockerTagLine; try assumption; line_feed_free.
Qed.

Lemma base_count (i : ImageTag) (t : string) :
  count_occ string_dec (baseJobLineList i) (dockerTagLine t)
  = if string_dec (tag i) t then 1 else 0.
Proof.
  unfold baseJobLineList. rewrite count_occ_app.
  rewrite count_occ_cons_neq by other_line.
  rewrite count_occ_cons_neq by other_line.
  rewrite count_own_dockerTagLine.
  destruct (_ || _); [|now rewrite Nat.add_0_r].
  rewrite count_occ_cons_neq by other_line. now rewrite Nat.add_0_r.
Qed.

Lemma base_workflow (images : list ImageTag) :
  Forall (fun i => lineFeedFree (tag i) = true) images ->
  OneDockerTagLinePerTag Base.isSkipped images (formBaseWorkflow images).
Proof.
  intros H. unfold formBaseWorkflow, Base.yml.
  rewrite (List.map_ext Base.job (fun i => Str.unlines (baseJobLineList i)))
    by apply BaseFacts.job_line_list.
  apply (one_line_per_tag _ _ baseJobLineList Base.isSkipped images);
    try reflexivity; try (intros; other_line); try assumption.
  - apply base_lineFeedFree.
  - apply base_count.
Qed.

(** *** Browsers *)

Lemma browser_job (i : ImageTag) (blk : string) :
  Browsers.job i = Return blk -> blk = Str.unlines (browserJobLineList i).
Proof.
  unfold Browsers.job, browserJobLineList, Browsers.parameter,
    parameterLines, Str.unlines, dockerTagLine.
  destruct (negb _); [discriminate|]. intros [= <-].
  destruct (isTruthy (findChromeVersion (tag i))),
    (isTruthy (findFirefoxVersion (tag i))),
    (isTruthy (findEdgeVersion (tag i)));
    cbn [List.map Str.join List.app];
    rewrite ?app_assoc, ?app_nil_r; cbn; now rewrite ?app_assoc.
Qed.

Lemma label_lineFeedFree (marker vendor tag : string) :
  lineFeedFree vendor = true ->
  lineFeedFree
    (default "" (findVersion marker (fun v => vendor +:+ v) tag)) = true.
Proof.
  intros Hv. rewrite RegExpFacts.findVersion_exec.
  destruct (RegExp.exec marker tag) as [[m g]|] eqn:E; [|reflexivity].
  apply RegExpFacts.exec_Some in E as (_ & _ & before & after & _ & _ & Hd & _).
  apply digits_lineFeedFree in Hd.
  cbn [option_map default from_option snd]. unfold id.
  line_feed_free.
Qed.

Lemma parameter_lineFeedFree (key marker vendor tag : string) :
  lineFeedFree key = true -> lineFeedFree vendor = true ->
  Forall (fun l => lineFeedFree l = true)
    (parameterLines key (findVersion marker (fun v => vendor +:+ v) tag)).
Proof.
  intros Hk Hv. unfold parameterLines.
  destruct (isTruthy _); constructor; [|constructor].
  pose proof (label_lineFeedFree marker vendor tag Hv) as Hl.
  line_feed_free.
Qed.

Lemma browser_lineFeedFree (i : ImageTag) :
  lineFeedFree (tag i) = true ->
  Forall (fun l => lineFeedFree l = true) (browserJobLineList i).
Proof.
  intros H. unfold browserJobLineList.
  apply List.Forall_app. split;
    [|apply List.Forall_app; split; [|apply List.Forall_app; split]].
  - repeat constructor; try apply lineFeedFree_dockerTagLine;
      try assumption; line_feed_free.
  - now apply (parameter_lineFeedFree "chromeVersion" "chrome"
                 "Google Chrome ").
  - now apply (parameter_lineFeedFree "firefoxVersion" "-ff"
                 "Mozilla Firefox ").
  - now apply (parameter_lineFeedFree "edgeVersion" "-edge"
                 "Microsoft Edge ").
Qed.

Lemma parameter_count (key : string) (version : option string) (t : string) :
  (forall v, "          " +:+ key +:+ ": " +:+ Str.dq +:+ v +:+ Str.dq
             <> dockerTagLine t) ->
  count_occ string_dec (parameterLines key version) (dockerTagLine t) = 0.
Proof.
  intros H. unfold parameterLines.
  destruct (isTruthy version); [|reflexivity].
  now rewrite count_occ_cons_neq by apply H.
Qed.

Lemma browser_count (i : ImageTag) (t : string) :
  count_occ string_dec (browserJobLineList i) (dockerTagLine t)
  = if string_dec (tag i) t then 1 else 0.
Proof.
  unfold browserJobLineList. rewrite !count_occ_app.
  rewrite count_occ_cons_neq by other_line.
  rewrite count_occ_cons_neq by other_line.
  rewrite count_own_dockerTagLine.
  rewrite !parameter_count by (intros v; other_line).
  now rewrite !Nat.add_0_r.
Qed.

Lemma browser_yml (images : list ImageTag) (yml : list string) :
  Browsers.yml Browsers.skipImages images = Return yml ->
  yml = List.map (fun i => Str.unlines (browserJobLineList i))
          (List.filter
             (fun i => negb (Browsers.isSkipped Browsers.skipImages (tag i)))
             images).
Proof.
  intros H. apply ExcFacts.map_Return in H.
  change (Browsers.isIncluded Browsers.skipImages)
    with (fun i => negb (Browsers.isSkipped Browsers.skipImages (tag i))) in H.
  induction H as [|i blk kept yml Hi _ IH]; [reflexivity|].
  cbn [List.map]. now rewrite (browser_job i blk Hi), IH.
Qed.

Lemma browser_workflow (images : list ImageTag) (yml : list string) :
  Browsers.yml Browsers.skipImages images = Return yml ->
  Forall (fun i => lineFeedFree (tag i) = true) images ->
  OneDockerTagLinePerTag (Browsers.isSkipped Browsers.skipImages) images
    (Browsers.workflowName +:+ Str.join yml).
Proof.
  intros Hy H. rewrite (browser_yml images yml Hy).
  apply (one_line_per_tag _ _ browserJobLineList
           (Browsers.isSkipped Browsers.skipImages) images);
    try reflexivity; try (intros; other_line); try assumption.
  - apply browser_lineFeedFree.
  - apply browser_count.
Qed.

(** *** Included *)

Lemma included_job (i : ImageTag) :
  Included.job i = Str.unlines (includedJobLineList i).
Proof.
  unfold Included.job, includedJobLineList, Str.unlines, dockerTagLine.
  cbn [List.map Str.join]. now rewrite ?app_assoc, ?app_nil_r.
Qed.

Lemma included_lineFeedFree (i : ImageTag) :
  lineFeedFree (tag i) = true ->
  Forall (fun l => lineFeedFree l = true) (includedJobLineList i).
Proof.
  intros H. unfold includedJobLineList.
  repeat constructor; try apply lineFeedFree_dockerTagLine;
    try assumption; line_feed_free.
Qed.

Lemma included_count (i : ImageTag) (t : string) :
  count_occ string_dec (includedJobLineList i) (dockerTagLine t)
  = if string_dec (tag i) t then 1 else 0.
Proof.
  unfold includedJobLineList.
  rewrite count_occ_cons_neq by other_line.
  rewrite count_occ_cons_neq by other_line.
  apply count_own_dockerTagLine.
Qed.

Lemma included_yml (images : list ImageTag) (yml : list string) :
  Included.yml images = Return yml ->
  yml = List.map (fun i => Str.unlines (includedJobLineList i))
          (List.filter (fun i => negb (includedSkips (tag i))) images).
Proof.
  unfold Included.yml.
  destruct (Exc.filter Included.isIncluded images) as [kept|e] eqn:E;
    cbn; [|discriminate].
  intros [= <-]. apply ExcFacts.filter_Return in E as [Hall ->].
  rewrite (List.filter_ext_in (Exc.answer Included.isIncluded)
             (fun i => negb (includedSkips (tag i)))).
  - apply List.map_ext. apply included_job.
  - intros x Hx. rewrite List.Forall_forall in Hall.
    destruct (Hall x Hx) as [b Hb]. now apply (JobsFacts.included_answer x b).
Qed.

Lemma included_workflow (images : list ImageTag) (yml : list string) :
  Included.yml images = Return yml ->
  Forall (fun i => lineFeedFree (tag i) = true) images ->
  OneDockerTagLinePerTag includedSkips images
    (Included.workflowName +:+ Str.join yml).
Proof.
  intros Hy H. rewrite (included_yml images yml Hy).
  apply (one_line_per_tag _ _ includedJobLineList includedSkips images);
    try reflexivity; try (intros; other_line); try assumption.
  - apply included_lineFeedFree.
  - apply included_count.
Qed.

End WorkflowLines.

(** C1. When [circle.yml] is written, its three workflows are made of job
    blocks [ymlBase], [ymlBrowsers] and [ymlIncluded] such that, in each
    category, the blocks are the jobs of the images that the skip predicate
    of the category does not match: every tag that is not skipped has as many
    blocks as folders (one, for the folders of a directory), and a tag that
    is skipped has none. In the text itself, when no tag contains a line
    feed, each workflow has one [dockerTag] line for every tag that is not
    skipped and none for a tag that is skipped. *)
Theorem one_job_block_per_tag_not_skipped (rt : Runtime)
    (baseImages browserImages includedImages : list ImageTag)
    (w w' : World) :
  writeConfigFile rt baseImages browserImages includedImages w
  = (Return tt, w') ->
  exists ymlBase ymlBrowsers ymlIncluded : list string,
    files w' !! "circle.yml"
    = Some (Str.trim (preamble (script rt)) +:+ EOL (platform rt)
              +:+ (Base.workflowName +:+ Str.join ymlBase)
              +:+ EOL (platform rt)
              +:+ (Browsers.workflowName +:+ Str.join ymlBrowsers)
              +:+ EOL (platform rt)
              +:+ (Included.workflowName +:+ Str.join ymlIncluded)) /\
    OneJobPerTag (fun i blk => Base.job i = blk)
      Base.isSkipped baseImages ymlBase /\
    OneJobPerTag (fun i blk => Browsers.job i = Return blk)
      (Browsers.isSkipped Browsers.skipImages) browserImages ymlBrowsers /\
    OneJobPerTag (fun i blk => Included.job i = blk)
      includedSkips includedImages ymlIncluded /\
    (Forall (fun i => lineFeedFree (tag i) = true)
       (baseImages ++ browserImages ++ includedImages) ->
     OneDockerTagLinePerTag Base.isSkipped baseImages
       (Base.workflowName +:+ Str.join ymlBase) /\
     OneDockerTagLinePerTag (Browsers.isSkipped Browsers.skipImages)
       browserImages (Browsers.workflowName +:+ Str.join ymlBrowsers) /\
     OneDockerTagLinePerTag includedSkips includedImages
       (Included.workflowName +:+ Str.join ymlIncluded)).
Proof.
  rewrite IOFacts.writeConfigFile_cases.
  unfold formBrowserWorkflow, formIncludedWorkflow.
  rewrite BrowsersFacts.form_yml.
  destruct (Browsers.yml Browsers.skipImages browserImages)
    as [ymlBrowsers|e] eqn:Hb; cbn; [|discriminate].
  destruct (Included.yml includedImages) as [ymlIncluded|e] eqn:Hi;
    cbn; [|discriminate].
  intros [= <-].
  exists (Base.yml baseImages), ymlBrowsers, ymlIncluded.
  split; [apply lookup_insert_eq|].
  split; [apply JobsFacts.base_jobs|].
  split; [now apply JobsFacts.browser_jobs|].
  split; [now apply JobsFacts.included_jobs|].
  intros Hfree. apply List.Forall_app in Hfree as [Hfb Hfree].
  apply List.Forall_app in Hfree as [Hfbr Hfi].
  split; [now apply WorkflowLines.base_workflow|].
  split; [now apply WorkflowLines.browser_workflow
         | now apply WorkflowLines.included_workflow].
Qed.

Lemma one_job_block_per_tag_not_skipped_witness :
  exists ymlBase ymlBrowsers ymlIncluded : list string,
    files (snd (writeConfigFile sampleRuntime sampleBase sampleBrowsers
                  sampleIncluded sampleWorld)) !! "circle.yml"
    = Some (Str.trim (preamble (script sampleRuntime))
              +:+ EOL (platform sampleRuntime)
              +:+ (Base.workflowName +:+ Str.join ymlBase)
              +:+ EOL (platform sampleRuntime)
              +:+ (Browsers.workflowName +:+ Str.join ymlBrowsers)
              +:+ EOL (platform sampleRuntime)
              +:+ (Included.workflowName +:+ Str.join ymlIncluded)) /\
    OneJobPerTag (fun i blk => Base.job i = blk)
      Base.isSkipped sampleBase ymlBase /\
    OneJobPerTag (fun i blk => Browsers.job i = Return blk)
      (Browsers.isSkipped Browsers.skipImages) sampleBrowsers ymlBrowsers /\
    OneJobPerTag (fun i blk => Included.job i = blk)
      includedSkips sampleIncluded ymlIncluded /\
    (Forall (fun i => lineFeedFree (tag i) = true)
       (sampleBase ++ sampleBrowsers ++ sampleIncluded) ->
     OneDockerTagLinePerTag Base.isSkipped sampleBase
       (Base.workflowName +:+ Str.join ymlBase) /\
     OneDockerTagLinePerTag (Browsers.isSkipped Browsers.skipImages)
       sampleBrowsers (Browsers.workflowName +:+ Str.join ymlBrowsers) /\
     OneDockerTagLinePerTag includedSkips sampleIncluded
       (Included.workflowName +:+ Str.join ymlIncluded)).
Proof.
  apply (one_job_block_per_tag_not_skipped sampleRuntime sampleBase
           sampleBrowsers sampleIncluded sampleWorld).
  reflexivity.
Defined.

(** * Further properties of the script *)

(** ** Splitting a path *)

Module SplitFacts.

Import StrFacts LinesFacts.

Lemma split_nonempty (c : ascii) (s : string) : Str.split c s <> [].
Proof.
  destruct s as [|a s]; cbn; [discriminate|].
  destruct (Ascii.eqb a c); [discriminate|].
  destruct (Str.split c s); discriminate.
Qed.

Lemma concat_cons (sep x : string) (xs : list string) :
  xs <> [] ->
  String.concat sep (x :: xs) = x +:+ sep +:+ String.concat sep xs.
Proof. destruct xs; [contradiction | reflexivity]. Qed.

(** Joining the parts with the separator gives the string back. *)
Lemma concat_split (c : ascii) (s : string) :
  String.concat (String c "") (Str.split c s) = s.
Proof.
  induction s as [|a s IH]; [reflexivity|].
  cbn [Str.split]. destruct (Ascii.eqb a c) eqn:E.
  - apply Ascii.eqb_eq in E. subst a.
    rewrite concat_cons by apply split_nonempty. now rewrite IH.
  - pose proof (split_nonempty c s) as Hne.
    destruct (Str.split c s) as [|w ws]; [contradiction|].
    destruct ws as [|w' ws].
    + cbn in *. now rewrite IH.
    + rewrite concat_cons by discriminate.
      rewrite concat_cons in IH by discriminate.
      rewrite <- IH. reflexivity.
Qed.

(** No part contains the separator. *)
Lemma split_parts (c : ascii) (s : string) :
  Forall (fun part => Str.every (fun a => negb (Ascii.eqb a c)) part = true)
    (Str.split c s).
Proof.
  induction s as [|a s IH]; cbn [Str.split].
  - repeat constructor.
  - destruct (Ascii.eqb a c) eqn:E.
    + constructor; [reflexivity | exact IH].
    + destruct (Str.split c s) as [|w ws]; [repeat constructor; cbn; now rewrite E|].
      inversion IH as [|? ? Hw Hws]; subst.
      constructor; [|exact Hws]. cbn. now rewrite E, Hw.
Qed.

Lemma split_whole (c : ascii) (s : string) :
  Str.every (fun a => negb (Ascii.eqb a c)) s = true -> Str.split c s = [s].
Proof.
  induction s as [|a s IH]; cbn; [reflexivity|].
  intros H. apply andb_true_iff in H as [Ha Hs].
  apply negb_true_iff in Ha. now rewrite Ha, IH.
Qed.

Lemma split_cons (c : ascii) (a b : string) :
  Str.every (fun x => negb (Ascii.eqb x c)) a = true ->
  Str.split c (a +:+ String c b) = a :: Str.split c b.
Proof.
  induction a as [|x a IH]; cbn.
  - now rewrite Ascii.eqb_refl.
  - intros H. apply andb_true_iff in H as [Hx Ha].
    apply negb_true_iff in Hx. cbn in IH. now rewrite Hx, IH.
Qed.

End SplitFacts.

(** X1. A path made of a folder name, a separator and a subfolder name is
    split into exactly these two: the name is the folder and the tag is the
    subfolder, unchanged. What follows a second separator is dropped. *)
Theorem splitImageFolderName_path (root child : string) :
  slashFree root = true ->
  slashFree child = true ->
  splitImageFolderName (root +:+ "/" +:+ child)
  = {| Folder.name := Some root; Folder.tag := Some child |} /\
  forall rest : string,
    splitImageFolderName (root +:+ "/" +:+ child +:+ "/" +:+ rest)
    = {| Folder.name := Some root; Folder.tag := Some child |}.
Proof.
  intros Hroot Hchild. unfold splitImageFolderName. split.
  - change (root +:+ "/" +:+ child) with (root +:+ String "/" child).
    rewrite SplitFacts.split_cons by exact Hroot.
    now rewrite SplitFacts.split_whole by exact Hchild.
  - intros rest.
    change (root +:+ "/" +:+ child +:+ "/" +:+ rest)
      with (root +:+ String "/" (child +:+ String "/" rest)).
    rewrite SplitFacts.split_cons by exact Hroot.
    now rewrite SplitFacts.split_cons by exact Hchild.
Qed.

Lemma splitImageFolderName_path_witness :
  splitImageFolderName ("browsers" +:+ "/" +:+ "node12.4.0-chrome76")
  = {| Folder.name := Some "browsers";
       Folder.tag := Some "node12.4.0-chrome76" |} /\
  forall rest : string,
    splitImageFolderName
      ("browsers" +:+ "/" +:+ "node12.4.0-chrome76" +:+ "/" +:+ rest)
    = {| Folder.name := Some "browsers";
         Folder.tag := Some "node12.4.0-chrome76" |}.
Proof.
  apply (splitImageFolderName_path "browsers" "node12.4.0-chrome76");
    reflexivity.
Defined.

(** X2. Whatever the path, the name is defined, it is the text before the
    first separator and has no separator in it. The tag is undefined exactly
    when the path has no separator, and then the name is the whole path;
    otherwise the tag has no separator in it and the path starts with the
    name, a separator and the tag. *)
Theorem splitImageFolderName_parts (folderName : string) :
  exists n : string,
    Folder.name (splitImageFolderName folderName) = Some n /\
    slashFree n = true /\
    match Folder.tag (splitImageFolderName folderName) with
    | Some t =>
        slashFree t = true /\
        slashFree folderName = false /\
        Str.startsWith folderName (n +:+ "/" +:+ t) = true
    | None => slashFree folderName = true /\ folderName = n
    end.
Proof.
  unfold splitImageFolderName.
  pose proof (SplitFacts.concat_split "/" folderName) as Hjoin.
  pose proof (SplitFacts.split_parts "/" folderName) as Hparts.
  pose proof (SplitFacts.split_nonempty "/" folderName) as Hne.
  destruct (Str.split "/" folderName) as [|n [|t rest]];
    [contradiction| |].
  - exists n. apply List.Forall_cons_iff in Hparts as [Hn _].
    cbn in Hjoin. subst n. cbn. repeat split; assumption.
  - exists n. apply List.Forall_cons_iff in Hparts as [Hn Hrest].
    apply List.Forall_cons_iff in Hrest as [Ht _].
    rewrite SplitFacts.concat_cons in Hjoin by discriminate.
    cbn [nth_error Folder.name Folder.tag]. repeat split; try assumption.
    + rewrite <- Hjoin. unfold slashFree.
      rewrite LinesFacts.every_app. cbn. apply andb_false_r.
    + apply StrFacts.startsWith_iff. rewrite <- Hjoin.
      destruct rest as [|t' rest].
      * exists "". cbn [String.concat]. now rewrite !StrFacts.app_nil_r.
      * rewrite SplitFacts.concat_cons by discriminate.
        exists (String "/" "" +:+ String.concat (String "/" "") (t' :: rest)).
        now rewrite !StrFacts.app_assoc.
Qed.

(** ** The workflows as functions of the list of images *)

Module WorkflowFacts.

Import StrFacts.

Lemma join_app (l1 l2 : list string) :
  Str.join (l1 ++ l2) = Str.join l1 +:+ Str.join l2.
Proof.
  induction l1 as [|x l1 IH]; cbn; [reflexivity|].
  now rewrite IH, app_assoc.
Qed.

Lemma map_app {A B} (f : A -> Completion B) (a b : list A) :
  Exc.map f (a ++ b)
  = Exc.bind (Exc.map f a) (fun ya =>
      Exc.bind (Exc.map f b) (fun yb => Return (ya ++ yb))).
Proof.
  induction a as [|x a IH]; cbn.
  - now destruct (Exc.map f b).
  - destruct (f x) as [y|e]; cbn; [|reflexivity]. rewrite IH.
    destruct (Exc.map f a) as [ya|e]; cbn; [|reflexivity].
    now destruct (Exc.map f b).
Qed.

Lemma filter_app {A} (p : A -> Completion bool) (a b : list A) :
  Exc.filter p (a ++ b)
  = Exc.bind (Exc.filter p a) (fun ka =>
      Exc.bind (Exc.filter p b) (fun kb => Return (ka ++ kb))).
Proof.
  induction a as [|x a IH]; cbn.
  - now destruct (Exc.filter p b).
  - destruct (p x) as [keep|e]; cbn; [|reflexivity]. rewrite IH.
    destruct (Exc.filter p a) as [ka|e]; cbn; [|reflexivity].
    destruct (Exc.filter p b) as [kb|e]; cbn; [|reflexivity].
    now destruct keep.
Qed.

(** The callbacks read the tag of an image only. *)
Section Tags.

Context {B : Type}.
Variable p : ImageTag -> bool.
Variable q : ImageTag -> Completion bool.
Variable f : ImageTag -> B.
Variable g : ImageTag -> Completion B.
Hypothesis p_tag : forall x y, tag x = tag y -> p x = p y.
Hypothesis q_tag : forall x y, tag x = tag y -> q x = q y.
Hypothesis f_tag : forall x y, tag x = tag y -> f x = f y.
Hypothesis g_tag : forall x y, tag x = tag y -> g x = g y.

Lemma map_filter_tags (l1 l2 : list ImageTag) :
  List.map tag l1 = List.map tag l2 ->
  List.map f (List.filter p l1) = List.map f (List.filter p l2).
Proof.
  revert l2. induction l1 as [|x l1 IH]; intros [|y l2] H;
    try discriminate; [reflexivity|].
  injection H as Hxy H. cbn. rewrite (p_tag x y Hxy).
  destruct (p y); cbn; [rewrite (f_tag x y Hxy)|]; now rewrite (IH l2 H).
Qed.

Lemma excmap_filter_tags (l1 l2 : list ImageTag) :
  List.map tag l1 = List.map tag l2 ->
  Exc.map g (List.filter p l1) = Exc.map g (List.filter p l2).
Proof.
  revert l2. induction l1 as [|x l1 IH]; intros [|y l2] H;
    try discriminate; [reflexivity|].
  injection H as Hxy H. cbn. rewrite (p_tag x y Hxy).
  destruct (p y); cbn; [rewrite (g_tag x y Hxy)|]; now rewrite (IH l2 H).
Qed.

Lemma excfilter_map_tags (l1 l2 : list ImageTag) :
  List.map tag l1 = List.map tag l2 ->
  Exc.bind (Exc.filter q l1) (fun kept => Return (List.map f kept))
  = Exc.bind (Exc.filter q l2) (fun kept => Return (List.map f kept)).
Proof.
  revert l2. induction l1 as [|x l1 IH]; intros [|y l2] H;
    try discriminate; [reflexivity|].
  injection H as Hxy H. cbn. rewrite (q_tag x y Hxy).
  destruct (q y) as [keep|e]; cbn; [|reflexivity].
  specialize (IH l2 H).
  destruct (Exc.filter q l1) as [k1|e1], (Exc.filter q l2) as [k2|e2];
    cbn in *; try congruence.
  injection IH as IH. destruct keep; cbn; [rewrite (f_tag x y Hxy)|];
    now rewrite IH.
Qed.

End Tags.

End WorkflowFacts.

(** X3. The workflows read the tags only: two lists of images with the same
    tags in the same order give the same base, browser and included
    workflow, whatever the names of the images are. *)
Theorem workflows_ignore_names (l1 l2 : list ImageTag) :
  List.map tag l1 = List.map tag l2 ->
  formBaseWorkflow l1 = formBaseWorkflow l2 /\
  formBrowserWorkflow l1 = formBrowserWorkflow l2 /\
  formIncludedWorkflow l1 = formIncludedWorkflow l2.
Proof.
  intros H. split; [|split].
  - unfold formBaseWorkflow, Base.yml. f_equal. f_equal.
    apply WorkflowFacts.map_filter_tags; [| |exact H]; intros x y Hxy.
    + unfold Base.isIncluded. now rewrite Hxy.
    + unfold Base.job. now rewrite Hxy.
  - unfold formBrowserWorkflow, Browsers.form, Browsers.yml. f_equal.
    apply WorkflowFacts.excmap_filter_tags; [| |exact H]; intros x y Hxy.
    + unfold Browsers.isIncluded. now rewrite Hxy.
    + unfold Browsers.job. now rewrite Hxy.
  - unfold formIncludedWorkflow, Included.yml. f_equal.
    apply WorkflowFacts.excfilter_map_tags; [| |exact H]; intros x y Hxy.
    + unfold Included.isIncluded. now rewrite Hxy.
    + unfold Included.job. now rewrite Hxy.
Qed.

Lemma workflows_ignore_names_witness :
  formBaseWorkflow
    [ {| name := "base"; tag := "14.5.0" |};
      {| name := "base"; tag := "6.0.0" |} ]
  = formBaseWorkflow
      [ {| name := "included"; tag := "14.5.0" |};
        {| name := ""; tag := "6.0.0" |} ] /\
  formBrowserWorkflow
    [ {| name := "base"; tag := "14.5.0" |};
      {| name := "base"; tag := "6.0.0" |} ]
  = formBrowserWorkflow
      [ {| name := "included"; tag := "14.5.0" |};
        {| name := ""; tag := "6.0.0" |} ] /\
  formIncludedWorkflow
    [ {| name := "base"; tag := "14.5.0" |};
      {| name := "base"; tag := "6.0.0" |} ]
  = formIncludedWorkflow
      [ {| name := "included"; tag := "14.5.0" |};
        {| name := ""; tag := "6.0.0" |} ].
Proof.
  apply (workflows_ignore_names
           [ {| name := "base"; tag := "14.5.0" |};
             {| name := "base"; tag := "6.0.0" |} ]
           [ {| name := "included"; tag := "14.5.0" |};
             {| name := ""; tag := "6.0.0" |} ]).
  reflexivity.
Defined.

(** X4. The jobs follow the order of the list, and a workflow is formed
    piecewise: the workflow of a list [a ++ b] is the workflow of [a]
    followed by the job blocks of [b]. For the browser and the included
    images an exception in [a] is the exception of the whole, before any
    image of [b] is looked at, and an exception in [b] comes next. *)
Theorem workflows_compose (a b : list ImageTag) :
  Base.yml (a ++ b) = Base.yml a ++ Base.yml b /\
  formBaseWorkflow (a ++ b) = formBaseWorkflow a +:+ Str.join (Base.yml b) /\
  formBrowserWorkflow (a ++ b)
  = match formBrowserWorkflow a with
    | Throw e => Throw e
    | Return text =>
        match Browsers.yml Browsers.skipImages b with
        | Throw e => Throw e
        | Return yml => Return (text +:+ Str.join yml)
        end
    end /\
  formIncludedWorkflow (a ++ b)
  = match formIncludedWorkflow a with
    | Throw e => Throw e
    | Return text =>
        match Included.yml b with
        | Throw e => Throw e
        | Return yml => Return (text +:+ Str.join yml)
        end
    end.
Proof.
  assert (Hb : Base.yml (a ++ b) = Base.yml a ++ Base.yml b).
  { unfold Base.yml. now rewrite List.filter_app, List.map_app. }
  split; [exact Hb|]. split; [|split].
  - unfold formBaseWorkflow.
    now rewrite Hb, WorkflowFacts.join_app, StrFacts.app_assoc.
  - unfold formBrowserWorkflow, Browsers.form, Browsers.yml.
    rewrite List.filter_app, WorkflowFacts.map_app.
    destruct (Exc.map Browsers.job
                (List.filter (Browsers.isIncluded Browsers.skipImages) a));
      cbn [Exc.bind]; [|reflexivity].
    destruct (Exc.map Browsers.job
                (List.filter (Browsers.isIncluded Browsers.skipImages) b));
      cbn [Exc.bind]; [|reflexivity].
    now rewrite WorkflowFacts.join_app, StrFacts.app_assoc.
  - unfold formIncludedWorkflow, Included.yml.
    rewrite WorkflowFacts.filter_app.
    destruct (Exc.filter Included.isIncluded a); cbn [Exc.bind];
      [|reflexivity].
    destruct (Exc.filter Included.isIncluded b); cbn [Exc.bind];
      [|reflexivity].
    now rewrite List.map_app, WorkflowFacts.join_app, StrFacts.app_assoc.
Qed.

(** ** When the run succeeds *)

Module RunFacts.

Lemma map_all_Return {A B} (f : A -> Completion B) (l : list A) :
  Forall (fun x => exists y, f x = Return y) l ->
  exists ys, Exc.map f l = Return ys.
Proof.
  induction 1 as [|x l [y Hy] _ [ys IH]]; cbn.
  - now exists [].
  - rewrite Hy, IH. cbn. now exists (y :: ys).
Qed.

Lemma filter_all_Return {A} (p : A -> Completion bool) (l : list A) :
  Forall (fun x => exists b, p x = Return b) l ->
  exists kept, Exc.filter p l = Return kept.
Proof.
  induction 1 as [|x l [b Hb] _ [kept IH]]; cbn.
  - now exists [].
  - rewrite Hb, IH. cbn. eauto.
Qed.

Lemma skipped_classifiable (t : string) :
  Browsers.isSkipped Browsers.skipImages t = true -> classifiable t = true.
Proof.
  intros H. apply BrowsersFacts.includes_In in H.
  pose proof BrowsersFacts.skipImages_classifiable as Hall.
  rewrite forallb_forall in Hall. now apply Hall.
Qed.

Lemma browser_returns_iff (images : list ImageTag) :
  (exists text, formBrowserWorkflow images = Return text) <->
  Forall (fun i => classifiable (tag i) = true) images.
Proof.
  unfold formBrowserWorkflow. rewrite BrowsersFacts.form_yml. split.
  - intros [text H].
    destruct (Browsers.yml Browsers.skipImages images) as [yml|e] eqn:Hy;
      [|discriminate].
    apply ExcFacts.map_Return in Hy. apply List.Forall_forall. intros i Hi.
    destruct (Browsers.isIncluded Browsers.skipImages i) eqn:Hinc.
    + assert (Hk : In i (List.filter
                           (Browsers.isIncluded Browsers.skipImages) images))
        by (apply List.filter_In; split; assumption).
      clear H Hi Hinc text.
      induction Hy as [|x blk kept yml Hx _ IH]; [contradiction|].
      destruct Hk as [-> | Hk]; [|now apply IH].
      pose proof (BrowsersFacts.job_cases i) as Hc.
      destruct (classifiable (tag i)); [reflexivity | congruence].
    + apply skipped_classifiable. unfold Browsers.isIncluded in Hinc.
      now apply negb_false_iff in Hinc.
  - intros Hall.
    destruct (map_all_Return Browsers.job
                (List.filter (Browsers.isIncluded Browsers.skipImages) images))
      as [yml Hy].
    + apply List.Forall_forall. intros i Hi.
      apply List.filter_In in Hi as [Hi _].
      rewrite List.Forall_forall in Hall. specialize (Hall i Hi).
      pose proof (BrowsersFacts.job_cases i) as Hc.
      now rewrite Hall in Hc.
    + unfold Browsers.yml. rewrite Hy. cbn. eauto.
Qed.

Lemma isIncluded_returns (i : ImageTag) :
  (exists b, Included.isIncluded i = Return b) <-> isVersion (tag i).
Proof.
  unfold Included.isIncluded, isVersion.
  rewrite SemverFacts.isSkipped_parse.
  destruct (semver.parse (tag i)) as [v|e]; cbn; split;
    intros [x H]; try discriminate; eauto.
Qed.

Lemma included_returns_iff (images : list ImageTag) :
  (exists text, formIncludedWorkflow images = Return text) <->
  Forall (fun i => isVersion (tag i)) images.
Proof.
  unfold formIncludedWorkflow, Included.yml. split.
  - intros [text H].
    destruct (Exc.filter Included.isIncluded images) as [kept|e] eqn:Hk;
      [|discriminate].
    apply ExcFacts.filter_Return in Hk as [Hall _].
    eapply List.Forall_impl; [|exact Hall].
    intros i Hi. now apply isIncluded_returns.
  - intros Hall.
    destruct (filter_all_Return Included.isIncluded images) as [kept Hk].
    + eapply List.Forall_impl; [|exact Hall].
      intros i Hi. now apply isIncluded_returns.
    + rewrite Hk. cbn. eauto.
Qed.


End RunFacts.

(** X5. The browser workflow is formed exactly when a browser pattern
    matches in every tag of the list. A tag of the skip list never stands in
    the way, because each of them names a browser. *)
Theorem browser_workflow_returns_iff (browserImages : list ImageTag) :
  (exists text, formBrowserWorkflow browserImages = Return text) <->
  Forall (fun i => classifiable (tag i) = true) browserImages.
Proof. apply RunFacts.browser_returns_iff. Qed.

(** X6. The included workflow is formed exactly when every tag of the list
    is a semantic version. The tags that end up skipped are parsed like the
    others: a folder that is not named by a version stops the workflow even
    when the others are all older than the threshold. *)
Theorem included_workflow_returns_iff (images : list ImageTag) :
  (exists text, formIncludedWorkflow images = Return text) <->
  Forall (fun i => isVersion (tag i)) images.
Proof. apply RunFacts.included_returns_iff. Qed.


(** X8. The run touches no file but [circle.yml]: every other path reads
    after the run as it read before, whether the run returns or throws. *)
Theorem run_writes_circle_yml_only (rt : Runtime)
    (base browsers included : list ImageTag) (w : World) (path : string) :
  path <> "circle.yml" ->
  files (snd (main rt base browsers included w)) !! path = files w !! path /\
  files (snd (writeConfigFile rt base browsers included w)) !! path
  = files w !! path.
Proof.
  intros Hp.
  rewrite IOFacts.main_writeConfigFile, !IOFacts.writeConfigFile_cases.
  destruct (formBrowserWorkflow browsers) as [bs|e]; cbn; [|now split].
  destruct (formIncludedWorkflow included) as [inc|e]; cbn; [|now split].
  split; apply lookup_insert_ne; congruence.
Qed.

Lemma run_writes_circle_yml_only_witness :
  files (snd (main sampleRuntime sampleBase sampleBrowsers sampleIncluded
                {| files := {[ "README.md" := "# images" ]};
                   console := [] |})) !! "README.md"
  = files {| files := {[ "README.md" := "# images" ]}; console := [] |}
      !! "README.md" /\
  files (snd (writeConfigFile sampleRuntime sampleBase sampleBrowsers
                sampleIncluded
                {| files := {[ "README.md" := "# images" ]};
                   console := [] |})) !! "README.md"
  = files {| files := {[ "README.md" := "# images" ]}; console := [] |}
      !! "README.md".
Proof.
  apply (run_writes_circle_yml_only sampleRuntime sampleBase sampleBrowsers
           sampleIncluded
           {| files := {[ "README.md" := "# images" ]}; console := [] |}
           "README.md").
  discriminate.
Defined.

(** X9. The console gets the three headings and the three lists of images
    in every run, also in one that throws, and after them the line
    [generated circle.yml] exactly when the run returns. *)
Theorem run_console (rt : Runtime)
    (base browsers included : list ImageTag) (w : World) :
  console (snd (main rt base browsers included w))
  = console w
      ++ [ Text " *** base images ***"; Images base;
           Text " *** browser images ***"; Images browsers;
           Text " *** included images ***"; Images included ]
      ++ match fst (main rt base browsers included w) with
         | Return _ => [ Text "generated circle.yml" ]
         | Throw _ => []
         end.
Proof.
  rewrite IOFacts.main_writeConfigFile, IOFacts.writeConfigFile_cases.
  destruct (formBrowserWorkflow browsers) as [bs|e]; cbn.
  - destruct (formIncludedWorkflow included) as [inc|e]; cbn.
    + now rewrite <- List.app_assoc.
    + reflexivity.
  - reflexivity.
Qed.

(** ** The text of the job blocks *)

Module BlockFacts.

Import StrFacts LinesFacts.

Lemma lines_of_block (ls : list string) :
  Forall (fun l => lineFeedFree l = true) ls ->
  linesOf (Str.unlines ls) = ls ++ [""].
Proof.
  intros H. rewrite <- (app_nil_r (Str.unlines ls)).
  now rewrite lines_unlines.
Qed.

Lemma filter_nil {A} (p : A -> bool) (l : list A) :
  List.filter p l = [] <-> Forall (fun x => p x = false) l.
Proof.
  induction l as [|x l IH]; cbn.
  - split; [constructor | reflexivity].
  - destruct (p x) eqn:E; split; intros H.
    + discriminate.
    + apply List.Forall_cons_iff in H as [H _]. congruence.
    + constructor; [exact E | now apply IH].
    + apply List.Forall_cons_iff in H as [_ H]. now apply IH.
Qed.

Lemma base_job_not_empty (i : ImageTag) (rest : string) :
  Base.job i +:+ rest <> "".
Proof. unfold Base.job. destruct (_ || _); cbn; discriminate. Qed.

Lemma ends_with_line_feed (h : string) (l : list string) :
  (exists a, h = a +:+ Str.nl) ->
  Forall (fun x => exists a, x = a +:+ Str.nl) l ->
  exists a, h +:+ Str.join l = a +:+ Str.nl.
Proof.
  intros Hh Hl. revert h Hh.
  induction Hl as [|x l [b ->] _ IH]; intros h [a ->]; cbn [Str.join].
  - exists a. now rewrite app_nil_r.
  - rewrite <- app_assoc. apply IH.
    exists ((a +:+ Str.nl) +:+ b). now rewrite !app_assoc.
Qed.

Lemma included_job_ends (i : ImageTag) :
  exists a, Included.job i = a +:+ Str.nl.
Proof.
  unfold Included.job.
  exists (("      - build-included-image:" +:+ Str.nl) +:+
          ("          name: " +:+ Str.dq +:+ "included " +:+ tag i
             +:+ Str.dq +:+ Str.nl) +:+
          ("          dockerTag: " +:+ Str.dq +:+ tag i +:+ Str.dq)).
  now rewrite !app_assoc.
Qed.

Lemma included_ends (images : list ImageTag) (text : string) :
  formIncludedWorkflow images = Return text ->
  exists a, text = a +:+ Str.nl.
Proof.
  unfold formIncludedWorkflow, Included.yml.
  destruct (Exc.filter Included.isIncluded images) as [kept|e];
    cbn [Exc.bind]; [|discriminate].
  intros H.
  assert (E : text = Included.workflowName
                       +:+ Str.join (List.map Included.job kept))
    by congruence.
  rewrite E. apply ends_with_line_feed.
  - exists ("  build-included-images:" +:+ Str.nl +:+ "    jobs:").
    reflexivity.
  - apply List.Forall_map, List.Forall_forall. intros i _.
    apply included_job_ends.
Qed.

Lemma header_only (h rest : string) : h +:+ rest = h -> rest = "".
Proof.
  intros H. rewrite <- (app_nil_r h) in H at 2.
  now apply app_inv_head in H.
Qed.

Lemma browser_job_not_empty (i : ImageTag) (blk rest : string) :
  Browsers.job i = Return blk -> blk +:+ rest <> "".
Proof.
  intros H. apply WorkflowLines.browser_job in H. rewrite H.
  unfold browserJobLineList, Str.unlines. cbn. discriminate.
Qed.

Lemma included_job_not_empty (i : ImageTag) (rest : string) :
  Included.job i +:+ rest <> "".
Proof. unfold Included.job. cbn. discriminate. Qed.

Lemma body_not_empty : Preamble.body <> [].
Proof. unfold Preamble.body. discriminate. Qed.

End BlockFacts.

(** X10. A workflow is its two header lines and nothing else exactly when
    every image of the list is skipped, as for an empty list: all jobs can
    disappear from a workflow. For the included images this is when every
    tag is a version below the threshold. *)
Theorem workflow_without_jobs (images : list ImageTag) :
  (formBaseWorkflow images = Base.workflowName <->
   Forall (fun i => Base.isSkipped (tag i) = true) images) /\
  (formBrowserWorkflow images = Return Browsers.workflowName <->
   Forall (fun i => Browsers.isSkipped Browsers.skipImages (tag i) = true)
     images) /\
  (formIncludedWorkflow images = Return Included.workflowName <->
   Forall (fun i => Included.isSkipped (tag i) = Return true) images).
Proof.
  split; [|split].
  - unfold formBaseWorkflow, Base.yml. split.
    + intros H. apply BlockFacts.header_only in H.
      destruct (List.filter Base.isIncluded images) as [|x kept] eqn:E.
      * apply BlockFacts.filter_nil in E.
        eapply List.Forall_impl; [|exact E].
        intros i Hi. unfold Base.isIncluded in Hi.
        now apply negb_false_iff in Hi.
      * cbn [List.map Str.join] in H.
        now apply BlockFacts.base_job_not_empty in H.
    + intros H.
      assert (E : List.filter Base.isIncluded images = []).
      { apply BlockFacts.filter_nil. eapply List.Forall_impl; [|exact H].
        intros i Hi. unfold Base.isIncluded. now rewrite Hi. }
      rewrite E. cbn [List.map Str.join]. apply StrFacts.app_nil_r.
  - unfold formBrowserWorkflow. rewrite BrowsersFacts.form_yml.
    unfold Browsers.yml. split.
    + intros H.
      destruct (List.filter (Browsers.isIncluded Browsers.skipImages) images)
        as [|x kept] eqn:E.
      * apply BlockFacts.filter_nil in E.
        eapply List.Forall_impl; [|exact E].
        intros i Hi. unfold Browsers.isIncluded in Hi.
        now apply negb_false_iff in Hi.
      * destruct (Exc.map Browsers.job (x :: kept)) as [yml|e] eqn:Hy;
          [|discriminate].
        cbn [Exc.bind] in H.
        assert (H' : Browsers.workflowName +:+ Str.join yml
                     = Browsers.workflowName) by congruence.
        apply BlockFacts.header_only in H'.
        apply ExcFacts.map_Return in Hy.
        inversion Hy as [|? blk ? yml' Hx _]; subst.
        cbn [Str.join] in H'.
        now apply (BlockFacts.browser_job_not_empty x blk) in H'.
    + intros H.
      assert (E : List.filter (Browsers.isIncluded Browsers.skipImages)
                    images = []).
      { apply BlockFacts.filter_nil. eapply List.Forall_impl; [|exact H].
        intros i Hi. unfold Browsers.isIncluded. now rewrite Hi. }
      rewrite E. cbn [Exc.map Exc.bind Str.join].
      now rewrite StrFacts.app_nil_r.
  - unfold formIncludedWorkflow, Included.yml. split.
    + intros H.
      destruct (Exc.filter Included.isIncluded images) as [kept|e] eqn:Hk;
        [|discriminate].
      cbn [Exc.bind] in H.
      assert (H' : Included.workflowName
                     +:+ Str.join (List.map Included.job kept)
                   = Included.workflowName) by congruence.
      apply BlockFacts.header_only in H'.
      apply ExcFacts.filter_Return in Hk as [Hall ->].
      destruct (List.filter (Exc.answer Included.isIncluded) images)
        as [|x kept] eqn:E.
      * apply BlockFacts.filter_nil in E.
        apply List.Forall_forall. intros i Hi.
        rewrite List.Forall_forall in Hall, E.
        specialize (E i Hi). destruct (Hall i Hi) as [b Hb].
        unfold Exc.answer in E. rewrite Hb in E. subst b.
        unfold Included.isIncluded in Hb.
        destruct (Included.isSkipped (tag i)) as [[]|]; cbn in Hb;
          congruence.
      * cbn [List.map Str.join] in H'.
        now apply BlockFacts.included_job_not_empty in H'.
    + intros H.
      assert (E : Exc.filter Included.isIncluded images = Return []).
      { induction H as [|i l Hi _ IH]; [reflexivity|].
        cbn. unfold Included.isIncluded at 1. rewrite Hi. cbn.
        now rewrite IH. }
      rewrite E. cbn [List.map Exc.bind Str.join].
      now rewrite StrFacts.app_nil_r.
Qed.

(** X11. Images with different tags get different job blocks, in each of
    the three categories, when the tags have no line feed in them: the
    [dockerTag] line of a block gives the tag back. *)
Theorem distinct_tags_distinct_jobs (i j : ImageTag) :
  lineFeedFree (tag i) = true ->
  lineFeedFree (tag j) = true ->
  (Base.job i = Base.job j -> tag i = tag j) /\
  (forall blk, Browsers.job i = Return blk -> Browsers.job j = Return blk ->
               tag i = tag j) /\
  (Included.job i = Included.job j -> tag i = tag j).
Proof.
  intros Hi Hj. split; [|split].
  - intros H. rewrite !BaseFacts.job_line_list in H.
    apply (f_equal linesOf) in H.
    rewrite !BlockFacts.lines_of_block in H
      by now apply WorkflowLines.base_lineFeedFree.
    apply (f_equal (fun l => nth 2 l "")) in H.
    unfold baseJobLineList in H. cbn [nth List.app] in H.
    now apply LinesFacts.dockerTagLine_inj.
  - intros blk Hbi Hbj.
    apply WorkflowLines.browser_job in Hbi, Hbj.
    assert (H : Str.unlines (browserJobLineList i)
                = Str.unlines (browserJobLineList j)) by congruence.
    apply (f_equal linesOf) in H.
    rewrite !BlockFacts.lines_of_block in H
      by now apply WorkflowLines.browser_lineFeedFree.
    apply (f_equal (fun l => nth 2 l "")) in H.
    unfold browserJobLineList in H. cbn [nth List.app] in H.
    now apply LinesFacts.dockerTagLine_inj.
  - intros H. rewrite !WorkflowLines.included_job in H.
    apply (f_equal linesOf) in H.
    rewrite !BlockFacts.lines_of_block in H
      by now apply WorkflowLines.included_lineFeedFree.
    apply (f_equal (fun l => nth 2 l "")) in H.
    unfold includedJobLineList in H. cbn [nth List.app] in H.
    now apply LinesFacts.dockerTagLine_inj.
Qed.

Lemma distinct_tags_distinct_jobs_witness :
  (Base.job {| name := "base"; tag := "14.5.0" |}
   = Base.job {| name := "base"; tag := "14.6.0" |} ->
   tag {| name := "base"; tag := "14.5.0" |}
   = tag {| name := "base"; tag := "14.6.0" |}) /\
  (forall blk,
     Browsers.job {| name := "base"; tag := "14.5.0" |} = Return blk ->
     Browsers.job {| name := "base"; tag := "14.6.0" |} = Return blk ->
     tag {| name := "base"; tag := "14.5.0" |}
     = tag {| name := "base"; tag := "14.6.0" |}) /\
  (Included.job {| name := "base"; tag := "14.5.0" |}
   = Included.job {| name := "base"; tag := "14.6.0" |} ->
   tag {| name := "base"; tag := "14.5.0" |}
   = tag {| name := "base"; tag := "14.6.0" |}).
Proof.
  apply (distinct_tags_distinct_jobs
           {| name := "base"; tag := "14.5.0" |}
           {| name := "base"; tag := "14.6.0" |}); reflexivity.
Defined.

(** X12. The text written to [circle.yml] starts with the warning line that
    names the generating script, and it ends with a line feed, on either
    platform and for every list of images. *)
Theorem document_first_line_and_end (rt : Runtime)
    (baseImages browserImages includedImages : list ImageTag)
    (w w' : World) :
  writeConfigFile rt baseImages browserImages includedImages w
  = (Return tt, w') ->
  exists doc : string,
    files w' !! "circle.yml" = Some doc /\
    Str.startsWith doc
      ("# WARNING: this file is automatically generated by "
         +:+ script rt +:+ Str.nl) = true /\
    Str.endsWith doc Str.nl = true.
Proof.
  rewrite IOFacts.writeConfigFile_cases.
  destruct (formBrowserWorkflow browserImages) as [browsers|e];
    [|discriminate].
  destruct (formIncludedWorkflow includedImages) as [included|e] eqn:Hi;
    [|discriminate].
  intros H.
  match type of H with
  | (_, written ?text _) = _ =>
      exists text; assert (E : w' = written text w) by congruence
  end.
  rewrite E. clear H E. split; [apply lookup_insert_eq|]. split.
  - apply StrFacts.startsWith_iff.
    rewrite PreambleFacts.trim_preamble. unfold Preamble.lines.
    rewrite SplitFacts.concat_cons by apply BlockFacts.body_not_empty.
    unfold Preamble.header. eexists. rewrite !StrFacts.app_assoc.
    reflexivity.
  - apply StrFacts.endsWith_iff.
    destruct (BlockFacts.included_ends includedImages included Hi)
      as [a ->].
    eexists. rewrite <- !StrFacts.app_assoc. reflexivity.
Qed.

Lemma document_first_line_and_end_witness :
  exists doc : string,
    files (snd (writeConfigFile sampleRuntime sampleBase sampleBrowsers
                  sampleIncluded sampleWorld)) !! "circle.yml"
    = Some doc /\
    Str.startsWith doc
      ("# WARNING: this file is automatically generated by "
         +:+ script sampleRuntime +:+ Str.nl) = true /\
    Str.endsWith doc Str.nl = true.
Proof.
  apply (document_first_line_and_end sampleRuntime sampleBase
           sampleBrowsers sampleIncluded sampleWorld).
  reflexivity.
Defined.

(** X13. The indentation of a job block is fixed: for a tag without line
    feed, the first line of the block is the job, indented by six spaces
    and a dash, every further line is indented by ten spaces, and the block
    ends with a line feed. There are at least two further lines, [name] and
    [dockerTag]. *)
Theorem job_block_indentation (i : ImageTag) :
  lineFeedFree (tag i) = true ->
  (exists rest,
     linesOf (Base.job i) = "      - build-base-image:" :: rest ++ [""] /\
     2 <= length rest /\
     Forall (fun l => Str.startsWith l "          " = true) rest) /\
  (forall blk,
     Browsers.job i = Return blk ->
     exists rest,
       linesOf blk = "      - build-browser-image:" :: rest ++ [""] /\
       2 <= length rest /\
       Forall (fun l => Str.startsWith l "          " = true) rest) /\
  (exists rest,
     linesOf (Included.job i)
     = "      - build-included-image:" :: rest ++ [""] /\
     2 <= length rest /\
     Forall (fun l => Str.startsWith l "          " = true) rest).
Proof.
  intros Hi. split; [|split].
  - rewrite BaseFacts.job_line_list, BlockFacts.lines_of_block
      by now apply WorkflowLines.base_lineFeedFree.
    unfold baseJobLineList. eexists. split; [reflexivity|]. split.
    + cbn [length List.app]. lia.
    + destruct (_ || _); repeat constructor.
  - intros blk Hb. apply WorkflowLines.browser_job in Hb. subst blk.
    rewrite BlockFacts.lines_of_block
      by now apply WorkflowLines.browser_lineFeedFree.
    unfold browserJobLineList. eexists. split; [reflexivity|]. split.
    + cbn [length List.app]. lia.
    + unfold parameterLines.
      destruct (isTruthy (findChromeVersion (tag i))),
        (isTruthy (findFirefoxVersion (tag i))),
        (isTruthy (findEdgeVersion (tag i))); repeat constructor.
  - rewrite WorkflowLines.included_job, BlockFacts.lines_of_block
      by now apply WorkflowLines.included_lineFeedFree.
    unfold includedJobLineList. eexists. split; [reflexivity|]. split.
    + cbn [length]. lia.
    + repeat constructor.
Qed.

Lemma job_block_indentation_witness :
  (exists rest,
     linesOf (Base.job {| name := "base"; tag := "12.0.0-libgbm" |})
     = "      - build-base-image:" :: rest ++ [""] /\
     2 <= length rest /\
     Forall (fun l => Str.startsWith l "          " = true) rest) /\
  (forall blk,
     Browsers.job {| name := "base"; tag := "12.0.0-libgbm" |}
     = Return blk ->
     exists rest,
       linesOf blk = "      - build-browser-image:" :: rest ++ [""] /\
       2 <= length rest /\
       Forall (fun l => Str.startsWith l "          " = true) rest) /\
  (exists rest,
     linesOf (Included.job {| name := "base"; tag := "12.0.0-libgbm" |})
     = "      - build-included-image:" :: rest ++ [""] /\
     2 <= length rest /\
     Forall (fun l => Str.startsWith l "          " = true) rest).
Proof.
  apply (job_block_indentation {| name := "base"; tag := "12.0.0-libgbm" |}).
  reflexivity.
Defined.

(** ** The first match *)

Module FirstMatchFacts.

Import StrFacts.

Lemma length_app (a b : string) :
  String.length (a +:+ b) = String.length a + String.length b.
Proof. induction a as [|x a IH]; cbn; [reflexivity | now rewrite IH]. Qed.

(** A prefix that is shorter than [x] is looked for in [x] alone. *)
Lemma stripPrefix_app_long (p x y : string) :
  String.length p < String.length x ->
  match Str.stripPrefix p x with
  | Some r => r <> "" /\ Str.stripPrefix p (x +:+ y) = Some (r +:+ y)
  | None => Str.stripPrefix p (x +:+ y) = None
  end.
Proof.
  revert x. induction p as [|a p IH]; intros x Hlen.
  - destruct x as [|b x]; [cbn in Hlen; lia|]. cbn. split; [discriminate|].
    reflexivity.
  - destruct x as [|b x]; [cbn in Hlen; lia|]. cbn.
    destruct (Ascii.eqb a b); [|reflexivity].
    apply IH. cbn in Hlen. lia.
Qed.

Lemma takeDigits_app_None (r y : string) :
  r <> "" -> Str.takeDigits r = "" -> Str.takeDigits (r +:+ y) = "".
Proof.
  destruct r as [|c r]; [contradiction|]. cbn.
  destruct (Str.isDigit c); [discriminate | reflexivity].
Qed.

Lemma matchHere_app_None (marker x y : string) :
  String.length marker < String.length x ->
  RegExp.matchHere marker x = None ->
  RegExp.matchHere marker (x +:+ y) = None.
Proof.
  intros Hlen. unfold RegExp.matchHere.
  pose proof (stripPrefix_app_long marker x y Hlen) as H.
  destruct (Str.stripPrefix marker x) as [r|].
  - destruct H as [Hr ->].
    destruct (Str.takeDigits r) eqn:E; [|discriminate].
    intros _. now rewrite takeDigits_app_None.
  - now rewrite H.
Qed.

Lemma exec_here (marker s : string) (m : string * string) :
  RegExp.matchHere marker s = Some m -> RegExp.exec marker s = Some m.
Proof. intros H. destruct s; cbn; now rewrite H. Qed.

(** Where no match starts before an occurrence of the marker, the search
    goes on from that occurrence. *)
Lemma exec_skip (marker before rest : string) :
  RegExp.exec marker (before +:+ marker) = None ->
  RegExp.exec marker (before +:+ marker +:+ rest)
  = RegExp.exec marker (marker +:+ rest).
Proof.
  induction before as [|c b IH]; [reflexivity|].
  cbn [String.append RegExp.exec].
  destruct (RegExp.matchHere marker (String c (b +:+ marker))) eqn:E;
    [discriminate|].
  intros H.
  assert (E' : RegExp.matchHere marker (String c (b +:+ marker +:+ rest))
               = None).
  { change (String c (b +:+ marker +:+ rest))
      with (String c b +:+ marker +:+ rest).
    rewrite <- app_assoc. apply matchHere_app_None; [|exact E].
    cbn. rewrite length_app. lia. }
  rewrite E'. now apply IH.
Qed.

Lemma findVersion_first (marker : string) (full : string -> string)
    (before digits after : string) :
  digits <> "" ->
  Str.every Str.isDigit digits = true ->
  Str.takeDigits after = "" ->
  RegExp.exec marker (before +:+ marker) = None ->
  findVersion marker full (before +:+ marker +:+ digits +:+ after)
  = Some (full digits).
Proof.
  intros Hne Hd Ha Hnone. rewrite RegExpFacts.findVersion_exec.
  rewrite exec_skip by exact Hnone.
  now rewrite (exec_here marker _ _
                 (RegExpFacts.matchHere_app marker digits after Hne Hd Ha)).
Qed.

End FirstMatchFacts.

(** X14. The first occurrence of a marker decides, and its digits are taken
    to the last one. When a tag is a text in which no match starts, the
    marker, a non-empty run of digits and a rest that does not start with a
    digit, a finder returns the label of exactly these digits;
    [findChromeVersion], [findFirefoxVersion] and [findEdgeVersion] are the
    finders of "chrome", "-ff" and "-edge". *)
Theorem first_marker_decides (marker : string) (full : string -> string)
    (before digits after : string) :
  digits <> "" ->
  Str.every Str.isDigit digits = true ->
  Str.takeDigits after = "" ->
  RegExp.exec marker (before +:+ marker) = None ->
  findVersion marker full (before +:+ marker +:+ digits +:+ after)
  = Some (full digits) /\
  findChromeVersion = findVersion "chrome" fullChromeVersion /\
  findFirefoxVersion = findVersion "-ff" fullFirefoxVersion /\
  findEdgeVersion = findVersion "-edge" fullEdgeVersion.
Proof.
  intros Hne Hd Ha Hnone.
  split; [now apply FirstMatchFacts.findVersion_first|].
  repeat split.
Qed.

Lemma first_marker_decides_witness :
  findVersion "-ff" fullFirefoxVersion
    ("node12.13.0-chrome78" +:+ "-ff" +:+ "70" +:+ "-brave78")
  = Some (fullFirefoxVersion "70") /\
  findChromeVersion = findVersion "chrome" fullChromeVersion /\
  findFirefoxVersion = findVersion "-ff" fullFirefoxVersion /\
  findEdgeVersion = findVersion "-edge" fullEdgeVersion.
Proof.
  apply (first_marker_decides "-ff" fullFirefoxVersion
           "node12.13.0-chrome78" "70" "-brave78");
    [discriminate | reflexivity | reflexivity | reflexivity].
Defined.

(** X15. The job block of a browser image is the job line, the [name] and
    the [dockerTag] line, and then one parameter line for each browser
    whose pattern matches in the tag: Chrome first, Firefox next and Edge
    last, whatever their order in the tag, each with the vendor and the
    captured digits. *)
Theorem browser_job_block (i : ImageTag) (blk : string) :
  Browsers.job i = Return blk ->
  blk
  = Str.unlines
      ([ "      - build-browser-image:";
         "          name: " +:+ Str.dq +:+ "browsers " +:+ tag i +:+ Str.dq;
         "          dockerTag: " +:+ Str.dq +:+ tag i +:+ Str.dq ]
       ++ versionLines "chromeVersion" "Google Chrome "
            (RegExp.exec "chrome" (tag i))
       ++ versionLines "firefoxVersion" "Mozilla Firefox "
            (RegExp.exec "-ff" (tag i))
       ++ versionLines "edgeVersion" "Microsoft Edge "
            (RegExp.exec "-edge" (tag i))).
Proof.
  intros H. apply WorkflowLines.browser_job in H. rewrite H.
  unfold browserJobLineList, parameterLines, findChromeVersion,
    findFirefoxVersion, findEdgeVersion, dockerTagLine.
  rewrite !RegExpFacts.findVersion_exec.
  destruct (RegExp.exec "chrome" (tag i)) as [[? ?]|],
    (RegExp.exec "-ff" (tag i)) as [[? ?]|],
    (RegExp.exec "-edge" (tag i)) as [[? ?]|]; reflexivity.
Qed.

Lemma browser_job_block_witness :
  "      - build-browser-image:" +:+ Str.nl +:+
  "          name: " +:+ Str.dq +:+ "browsers node14-edge88-chrome84"
    +:+ Str.dq +:+ Str.nl +:+
  "          dockerTag: " +:+ Str.dq +:+ "node14-edge88-chrome84"
    +:+ Str.dq +:+ Str.nl +:+
  "          chromeVersion: " +:+ Str.dq +:+ "Google Chrome 84"
    +:+ Str.dq +:+ Str.nl +:+
  "          edgeVersion: " +:+ Str.dq +:+ "Microsoft Edge 88"
    +:+ Str.dq +:+ Str.nl
  = Str.unlines
      ([ "      - build-browser-image:";
         "          name: " +:+ Str.dq +:+ "browsers "
           +:+ tag {| name := "browsers"; tag := "node14-edge88-chrome84" |}
           +:+ Str.dq;
         "          dockerTag: " +:+ Str.dq
           +:+ tag {| name := "browsers"; tag := "node14-edge88-chrome84" |}
           +:+ Str.dq ]
       ++ versionLines "chromeVersion" "Google Chrome "
            (RegExp.exec "chrome"
               (tag {| name := "browsers";
                       tag := "node14-edge88-chrome84" |}))
       ++ versionLines "firefoxVersion" "Mozilla Firefox "
            (RegExp.exec "-ff"
               (tag {| name := "browsers";
                       tag := "node14-edge88-chrome84" |}))
       ++ versionLines "edgeVersion" "Microsoft Edge "
            (RegExp.exec "-edge"
               (tag {| name := "browsers";
                       tag := "node14-edge88-chrome84" |}))).
Proof.
  apply (browser_job_block
           {| name := "browsers"; tag := "node14-edge88-chrome84" |}).
  reflexivity.
Defined.
